(** * Shape capture, geodesic metrics and progress ledger of the site editor

    A shallow embedding of the core of [src/components/MapCanvas.tsx]
    ([calculateMetrics], the click handler of [MapEvents]) and of
    [src/components/SiteEditor.tsx] (the editor state and its handlers),
    over the interfaces of [src/types.ts].

    Conventions of the embedding.
    - A JavaScript [number] is read in two ways.  The editor state and
      its handlers carry exact rationals ([Q]); the theorems stated on
      them are about structure and order, which the rounding of doubles
      keeps: adding a length that is not negative, multiplying or
      dividing by a positive constant, [Math.round] and [Math.ceil]
      are monotone in double precision as well.  The figures
      themselves are IEEE 754 doubles: module [Double] has
      [calculateMetrics] and the derived figures of the panel over the
      primitive floats, every operation correctly rounded, and the
      results that depend on the rounding of an operation are stated
      there.
    - An optional field ([f?: T]) is an [option]; [None] is [undefined].
    - React state is one record; a handler is a function from the state
      it closes over to the state after its setters have run.
    - Leaflet ([L.latLng(..).distanceTo], [map.latLngToContainerPoint],
      [L.Point.distanceTo]), [parseFloat], [uuidv4] and [Date.now] are
      external: they are parameters of the definitions that call them. *)

From Stdlib Require Import ZArith QArith Qround Qabs Qminmax.
From Stdlib Require Import String List Bool Arith Lia Lqa.
From Stdlib Require Import DecimalString DecimalNat.
From Stdlib Require Import Floats.
Import ListNotations.

Set Warnings "-inexact-float".

Local Open Scope Q_scope.

(** ** JavaScript primitives used by the two components *)

Module JS.

(** [Math.round x]: the nearest integer, halves going up. *)
Definition Math_round (x : Q) : Z := Qfloor (x + (1 # 2)).

(** [Math.ceil x]. *)
Definition Math_ceil (x : Q) : Z := Qceiling x.

(** [x < y] and [x <= y], [x > y] on numbers. *)
Definition le (x y : Q) : bool := Qle_bool x y.
Definition lt (x y : Q) : bool := negb (Qle_bool y x).
Definition gt (x y : Q) : bool := lt y x.

(** [Math.max x y] on numbers. *)
Definition Math_max (x y : Q) : Q := if le x y then y else x.

(** [a ?? d]: the default only replaces [undefined]. *)
Definition nullish {A : Type} (a : option A) (d : A) : A :=
  match a with Some v => v | None => d end.

(** [a || d] on an optional number: [undefined] and [0] are falsy. *)
Definition or_number (a : option Q) (d : Q) : Q :=
  match a with
  | Some v => if Qeq_bool v 0 then d else v
  | None => d
  end.

(** [a || d] on an optional string: [undefined] and [''] are falsy. *)
Definition or_string (a : option string) (d : string) : string :=
  match a with
  | Some v => if String.eqb v EmptyString then d else v
  | None => d
  end.

(** [s || undefined] on a string. *)
Definition or_undefined (s : string) : option string :=
  if String.eqb s EmptyString then None else Some s.

(** [!!a] on an optional string. *)
Definition truthy_string (a : option string) : bool :=
  match a with
  | Some v => negb (String.eqb v EmptyString)
  | None => false
  end.

(** [a || []] on an optional array: every array is truthy. *)
Definition or_array {A : Type} (a : option (list A)) : list A :=
  match a with Some v => v | None => [] end.

(** How a call of a function completes: it returns a value, [None]
    for the [undefined] that [return;] and the end of a body give, or
    it throws. *)
Inductive Completion (A : Type) : Type :=
| Return (value : option A)
| Throw (error : string).

Arguments Return {A} value.
Arguments Throw {A} error.

End JS.

(** ** The interfaces of [types.ts] *)

Record Point : Type := mkPoint { lat : Q; lng : Q }.

Record SiteMetrics : Type := mkSiteMetrics {
  perimeterMeters : Q;
  vertexCount : nat;
  estimatedWalkTimeMinutes : Q
}.

(** Equality of two metrics records as JavaScript values: the numbers
    are compared as numbers, not as fractions. *)
Definition SiteMetrics_eq (m m' : SiteMetrics) : Prop :=
  perimeterMeters m == perimeterMeters m' /\
  vertexCount m = vertexCount m' /\
  estimatedWalkTimeMinutes m == estimatedWalkTimeMinutes m'.

Definition number_eq (x y : option Q) : Prop :=
  match x, y with
  | Some a, Some b => a == b
  | None, None => True
  | _, _ => False
  end.

Inductive Status : Type := pending | approved | rejected.

Definition Status_eqb (a b : Status) : bool :=
  match a, b with
  | pending, pending | approved, approved | rejected, rejected => true
  | _, _ => false
  end.

Module DailyProgress.
Record t : Type := mk {
  id : string;
  date : Z;
  metersCompleted : Q;
  status : Status;
  notes : option string;
  customTileUrl : option string
}.

(** [{ ...p, status }] *)
Definition with_status (p : t) (s : Status) : t :=
  mk (id p) (date p) (metersCompleted p) s (notes p) (customTileUrl p).
End DailyProgress.

Module Site.
Record t : Type := mk {
  id : string;
  name : string;
  createdAt : Z;
  points : list Point;
  metrics : SiteMetrics;
  isClosed : option bool;
  customTileUrl : option string;
  contractorCommitmentPerDay : option Q;
  dailyProgress : option (list DailyProgress.t)
}.

(** Two sites are the same value: every field equal, the computed
    numbers compared as numbers. *)
Definition same (s s' : t) : Prop :=
  id s = id s' /\ name s = name s' /\ createdAt s = createdAt s' /\
  points s = points s' /\ SiteMetrics_eq (metrics s) (metrics s') /\
  isClosed s = isClosed s' /\ customTileUrl s = customTileUrl s' /\
  number_eq (contractorCommitmentPerDay s)
            (contractorCommitmentPerDay s') /\
  dailyProgress s = dailyProgress s'.
End Site.

(** ** [MapCanvas.tsx] *)

Module MapCanvas.

Section Metrics.

(** [L.latLng(a).distanceTo(L.latLng(b))]: Leaflet's great-circle
    distance in metres. *)
Variable distanceTo : Point -> Point -> Q.

(** One turn of the loop body of [calculateMetrics]: the length of
    the segment from [points[i]] to [points[(i + 1) % points.length]].
    Reading [.lat] of an index out of range throws; that is [None]. *)
Definition segment (points : list Point) (i : nat) : option Q :=
  match nth_error points i,
        nth_error points ((i + 1) mod length points) with
  | Some p1, Some p2 => Some (distanceTo p1 p2)
  | _, _ => None
  end.

(** [for (let i = ..; i < limit; i++) perimeter += ...], with [n] the
    number of turns left ([limit - i]). *)
Fixpoint perimeterLoop (points : list Point) (n i : nat) (perimeter : Q)
  : option Q :=
  match n with
  | O => Some perimeter
  | S n' =>
      match segment points i with
      | Some d => perimeterLoop points n' (S i) (perimeter + d)
      | None => None
      end
  end.

(** Walk speed, metres per minute. *)
Definition WALK_SPEED : Q := 8333 # 100.

(** [calculateMetrics(points, isClosed)].  Every caller passes
    [isClosed]; the default value [true] of the parameter is applied
    by the callers of this definition.  The arithmetic here is exact;
    [Double.MapCanvas.calculateMetrics] below is the same function on
    doubles. *)
Definition calculateMetrics (points : list Point) (isClosed : bool)
  : option SiteMetrics :=
  if (length points <? 2)%nat then
    Some (mkSiteMetrics 0 (length points) 0)
  else
    let limit :=
      if isClosed then length points else (length points - 1)%nat in
    match perimeterLoop points limit 0 0 with
    | Some perimeter =>
        let walkTime := perimeter / WALK_SPEED in
        Some (mkSiteMetrics
                (inject_Z (JS.Math_round (perimeter * 100)) / 100)
                (length points)
                (inject_Z (JS.Math_round (walkTime * 10)) / 10))
    | None => None
    end.

End Metrics.

Section MapEvents.

(** Screen coordinates, [map.latLngToContainerPoint] and the
    [distanceTo] of [L.Point]. *)
Variable ScreenPoint : Type.
Variable latLngToContainerPoint : Point -> ScreenPoint.
Variable screenDistanceTo : ScreenPoint -> ScreenPoint -> Q.

Definition SNAP_THRESHOLD_PIXELS : Q := 15.

(** [dist < closestDist], with [None] for [Infinity]. *)
Definition below (dist : Q) (closestDist : option Q) : bool :=
  match closestDist with
  | None => true
  | Some c => JS.lt dist c
  end.

(** The body of [for (const p of points)]; the accumulator is the
    pair [(closestDist, snapTarget)]. *)
Definition snapStep (clickPoint : ScreenPoint)
           (acc : option Q * option Point) (p : Point)
  : option Q * option Point :=
  let pContainer := latLngToContainerPoint p in
  let dist := screenDistanceTo clickPoint pContainer in
  if below dist (fst acc) && JS.le dist SNAP_THRESHOLD_PIXELS
  then (Some dist, Some p)
  else acc.

Definition snapLoop (clickPoint : ScreenPoint) (points : list Point)
  : option Q * option Point :=
  fold_left (snapStep clickPoint) points (None, None).

(** The coordinates [{ lat: newLat, lng: newLng }] the click handler
    appends for a click at [latlng]. *)
Definition resolveClick (snapToPoints : bool) (points : list Point)
           (latlng : Point) : Point :=
  let newLat := lat latlng in
  let newLng := lng latlng in
  if snapToPoints && (0 <? length points)%nat then
    let clickPoint := latLngToContainerPoint latlng in
    match snd (snapLoop clickPoint points) with
    | Some snapTarget => mkPoint (lat snapTarget) (lng snapTarget)
    | None => mkPoint newLat newLng
    end
  else mkPoint newLat newLng.

(** The [click] handler: [Some ps] when [onPointsChange(ps)] is
    called, [None] when the click is ignored. *)
Definition click (isDrawing isFinished snapToPoints : bool)
           (points : list Point) (latlng : Point)
  : option (list Point) :=
  if isDrawing && negb isFinished then
    Some (points ++ [resolveClick snapToPoints points latlng])
  else None.

End MapEvents.

End MapCanvas.

(** ** [SiteEditor.tsx] *)

Module SiteEditor.

(** The [useState] cells of the component that the drawing tools, the
    progress panel and [handleSave] read or write.  The cells of the
    search box, of the map centre and of the panel toggles are left
    out: no handler below reads them. *)
Record State : Type := mkState {
  points : list Point;
  isDrawing : bool;
  isFinished : bool;
  isClosed : bool;
  snapToPoints : bool;
  customTileUrl : string;
  showCustomTiles : bool;
  contractorCommitment : Q;
  dailyProgress : list DailyProgress.t;
  newProgressMeters : string;
  newProgressNotes : string
}.

(** The setters returned by [useState]. *)
Definition setPoints (v : list Point) (st : State) : State :=
  mkState v (isDrawing st) (isFinished st) (isClosed st) (snapToPoints st)
          (customTileUrl st) (showCustomTiles st) (contractorCommitment st)
          (dailyProgress st) (newProgressMeters st) (newProgressNotes st).

Definition setIsDrawing (v : bool) (st : State) : State :=
  mkState (points st) v (isFinished st) (isClosed st) (snapToPoints st)
          (customTileUrl st) (showCustomTiles st) (contractorCommitment st)
          (dailyProgress st) (newProgressMeters st) (newProgressNotes st).

Definition setIsFinished (v : bool) (st : State) : State :=
  mkState (points st) (isDrawing st) v (isClosed st) (snapToPoints st)
          (customTileUrl st) (showCustomTiles st) (contractorCommitment st)
          (dailyProgress st) (newProgressMeters st) (newProgressNotes st).

Definition setIsClosed (v : bool) (st : State) : State :=
  mkState (points st) (isDrawing st) (isFinished st) v (snapToPoints st)
          (customTileUrl st) (showCustomTiles st) (contractorCommitment st)
          (dailyProgress st) (newProgressMeters st) (newProgressNotes st).

Definition setSnapToPoints (v : bool) (st : State) : State :=
  mkState (points st) (isDrawing st) (isFinished st) (isClosed st) v
          (customTileUrl st) (showCustomTiles st) (contractorCommitment st)
          (dailyProgress st) (newProgressMeters st) (newProgressNotes st).

Definition setContractorCommitment (v : Q) (st : State) : State :=
  mkState (points st) (isDrawing st) (isFinished st) (isClosed st)
          (snapToPoints st) (customTileUrl st) (showCustomTiles st) v
          (dailyProgress st) (newProgressMeters st) (newProgressNotes st).

Definition setDailyProgress (v : list DailyProgress.t) (st : State)
  : State :=
  mkState (points st) (isDrawing st) (isFinished st) (isClosed st)
          (snapToPoints st) (customTileUrl st) (showCustomTiles st)
          (contractorCommitment st) v
          (newProgressMeters st) (newProgressNotes st).

Definition setNewProgressMeters (v : string) (st : State) : State :=
  mkState (points st) (isDrawing st) (isFinished st) (isClosed st)
          (snapToPoints st) (customTileUrl st) (showCustomTiles st)
          (contractorCommitment st) (dailyProgress st) v
          (newProgressNotes st).

Definition setNewProgressNotes (v : string) (st : State) : State :=
  mkState (points st) (isDrawing st) (isFinished st) (isClosed st)
          (snapToPoints st) (customTileUrl st) (showCustomTiles st)
          (contractorCommitment st) (dailyProgress st)
          (newProgressMeters st) v.

(** The initial values of the cells, from the [site] prop. *)
Definition init (site : Site.t) : State :=
  mkState
    (Site.points site)
    (length (Site.points site) =? 0)%nat
    (1 <? length (Site.points site))%nat
    (JS.nullish (Site.isClosed site) true)
    true
    (JS.or_string (Site.customTileUrl site) EmptyString)
    (JS.truthy_string (Site.customTileUrl site))
    (JS.or_number (Site.contractorCommitmentPerDay site) 100)
    (JS.or_array (Site.dailyProgress site))
    EmptyString
    EmptyString.

(** *** Derived figures of the progress panel

    With exact arithmetic; [Double.SiteEditor] below has the same three
    figures on doubles. *)

(** [dailyProgress.reduce((sum, p) => sum + (p.status === 'approved' ?
    p.metersCompleted : 0), 0)] *)
Definition totalCompleted (ledger : list DailyProgress.t) : Q :=
  fold_left
    (fun sum p =>
       sum + (if Status_eqb (DailyProgress.status p) approved
              then DailyProgress.metersCompleted p else 0))
    ledger 0.

Definition progressPercentage (perimeter total : Q) : Z :=
  if JS.gt perimeter 0
  then Z.min 100 (JS.Math_round ((total / perimeter) * 100))
  else 0%Z.

Definition daysRemaining (perimeter total commitment : Q) : Z :=
  if JS.gt commitment 0
  then JS.Math_ceil (JS.Math_max 0 (perimeter - total) / commitment)
  else 0%Z.

(** *** Drawing tools *)

Definition handleUndo (st : State) : State :=
  if (0 <? length (points st))%nat then
    setIsDrawing true
      (setIsFinished false (setPoints (removelast (points st)) st))
  else st.

Definition handleClear (st : State) : State :=
  setIsDrawing true (setIsFinished false (setPoints [] st)).

Definition handleFinish (st : State) : State :=
  if (1 <? length (points st))%nat then
    setIsDrawing false (setIsFinished true st)
  else st.

(** [onClick={() => setIsClosed(!isClosed)}] *)
Definition toggleClosed (st : State) : State :=
  setIsClosed (negb (isClosed st)) st.

(** The [disabled] attributes of the three tool buttons. *)
Definition undoDisabled (st : State) : bool :=
  (length (points st) =? 0)%nat || isFinished st.

Definition clearDisabled (st : State) : bool :=
  (length (points st) =? 0)%nat.

Definition finishDisabled (st : State) : bool :=
  (length (points st) <? 2)%nat || isFinished st.

(** A click on the Undo button: a disabled button fires no handler. *)
Definition clickUndo (st : State) : State :=
  if undoDisabled st then st else handleUndo st.

(** *** Progress ledger *)

Definition handleUpdateProgressStatus (id : string) (status : Status)
           (st : State) : State :=
  setDailyProgress
    (map (fun p =>
            if String.eqb (DailyProgress.id p) id
            then DailyProgress.with_status p status
            else p)
         (dailyProgress st))
    st.

(** The card of an entry shows Approve and Reject only under
    [p.status === 'pending']. *)
Definition reviewButtonsShown (p : DailyProgress.t) : bool :=
  Status_eqb (DailyProgress.status p) pending.

(** A click on a review button of the card of the [i]-th entry, when
    that card has the button. *)
Definition clickReview (i : nat) (status : Status) (st : State) : State :=
  match nth_error (dailyProgress st) i with
  | Some p =>
      if reviewButtonsShown p
      then handleUpdateProgressStatus (DailyProgress.id p) status st
      else st
  | None => st
  end.

Section Collaborators.

(** [parseFloat]: [None] is [NaN]. *)
Variable parseFloat : string -> option Q.

(** [L.latLng(a).distanceTo(L.latLng(b))] *)
Variable distanceTo : Point -> Point -> Q.

(** [const metrics = calculateMetrics(points, isClosed)] *)
Definition metrics (st : State) : option SiteMetrics :=
  MapCanvas.calculateMetrics distanceTo (points st) (isClosed st).

(** [handleAddProgress], with the values [uuid] and [now] that
    [uuidv4()] and [Date.now()] return in this call. *)
Definition handleAddProgress (uuid : string) (now : Z) (st : State)
  : State :=
  match parseFloat (newProgressMeters st) with
  | None => st
  | Some meters =>
      if JS.le meters 0 then st
      else
        let newProgress :=
          DailyProgress.mk uuid now meters pending
                           (Some (newProgressNotes st)) None in
        setNewProgressNotes EmptyString
          (setNewProgressMeters EmptyString
             (setDailyProgress (dailyProgress st ++ [newProgress]) st))
  end.

(** How the call [handleAddProgress()] completes.  The guard of line
    79 leaves with a bare [return;], an accepted amount runs to the end
    of the body; no path returns a value and none throws. *)
Definition handleAddProgress_completion (st : State)
  : JS.Completion DailyProgress.t :=
  match parseFloat (newProgressMeters st) with
  | None => JS.Return None
  | Some meters =>
      if JS.le meters 0 then JS.Return None
      else JS.Return None
  end.

(** [handleSave]: the value handed to [onSave].  [None] when the
    render that computes [metrics] throws. *)
Definition handleSave (site : Site.t) (st : State) : option Site.t :=
  match metrics st with
  | Some m =>
      Some (Site.mk (Site.id site) (Site.name site) (Site.createdAt site)
                    (points st) m (Some (isClosed st))
                    (JS.or_undefined (customTileUrl st))
                    (Some (contractorCommitment st))
                    (Some (dailyProgress st)))
  | None => None
  end.

End Collaborators.

Section MapClick.

Variable ScreenPoint : Type.
Variable latLngToContainerPoint : Point -> ScreenPoint.
Variable screenDistanceTo : ScreenPoint -> ScreenPoint -> Q.

(** A click on the map: [MapEvents] calls [onPointsChange], which
    is [setPoints]. *)
Definition mapClick (latlng : Point) (st : State) : State :=
  match MapCanvas.click ScreenPoint latLngToContainerPoint
                        screenDistanceTo
                        (isDrawing st) (isFinished st) (snapToPoints st)
                        (points st) latlng with
  | Some ps => setPoints ps st
  | None => st
  end.

End MapClick.

Definition setCustomTileUrl (v : string) (st : State) : State :=
  mkState (points st) (isDrawing st) (isFinished st) (isClosed st)
          (snapToPoints st) v (showCustomTiles st) (contractorCommitment st)
          (dailyProgress st) (newProgressMeters st) (newProgressNotes st).

Definition setShowCustomTiles (v : bool) (st : State) : State :=
  mkState (points st) (isDrawing st) (isFinished st) (isClosed st)
          (snapToPoints st) (customTileUrl st) v (contractorCommitment st)
          (dailyProgress st) (newProgressMeters st) (newProgressNotes st).

(** A finished drawing has two vertices or more, and the two phase
    flags are not on together. *)
Definition flags_ok (st : State) : Prop :=
  (isFinished st = true -> (2 <= length (points st))%nat) /\
  ~ (isDrawing st = true /\ isFinished st = true).

(** *** An editing session

    Every way the component changes the cells above: the callbacks of
    the map, of the tool bar, of the tile settings and of the progress
    panel.  The handlers are called as they are, whether or not the
    button that fires them is enabled. *)

Inductive Event : Type :=
| MapClick (latlng : Point)
| Undo
| Clear
| Finish
| ToggleClosed
| ToggleSnap
| TypeTileUrl (url : string)
| CheckShowTiles (checked : bool)
| TypeCommitment (value : Q)
| TypeMeters (text : string)
| TypeNotes (text : string)
| AddProgress (uuid : string) (now : Z)
| UpdateStatus (id : string) (status : Status).

Section Session.

Variable parseFloat : string -> option Q.
Variable ScreenPoint : Type.
Variable latLngToContainerPoint : Point -> ScreenPoint.
Variable screenDistanceTo : ScreenPoint -> ScreenPoint -> Q.

Definition step (e : Event) (st : State) : State :=
  match e with
  | MapClick latlng =>
      mapClick ScreenPoint latLngToContainerPoint screenDistanceTo latlng st
  | Undo => handleUndo st
  | Clear => handleClear st
  | Finish => handleFinish st
  | ToggleClosed => toggleClosed st
  | ToggleSnap => setSnapToPoints (negb (snapToPoints st)) st
  | TypeTileUrl url => setCustomTileUrl url st
  | CheckShowTiles checked => setShowCustomTiles checked st
  | TypeCommitment value => setContractorCommitment value st
  | TypeMeters text => setNewProgressMeters text st
  | TypeNotes text => setNewProgressNotes text st
  | AddProgress uuid now => handleAddProgress parseFloat uuid now st
  | UpdateStatus id status => handleUpdateProgressStatus id status st
  end.

Definition run (events : list Event) (st : State) : State :=
  fold_left (fun s e => step e s) events st.

End Session.

End SiteEditor.

(** ** The specification's wording of the derived quantities

    These follow the text of the specification, not the code; the
    theorems below compare the two. *)

Module Spec.

Section GeodesicMetrics.

Variable distance : Point -> Point -> Q.

(** The sum of the distances between consecutive vertices of an
    open path. *)
Fixpoint openLength (vs : list Point) : Q :=
  match vs with
  | a :: rest =>
      match rest with
      | b :: _ => distance a b + openLength rest
      | [] => 0
      end
  | [] => 0
  end.

(** The segment that closes a polygon: last vertex back to first. *)
Definition wrapLength (vs : list Point) : Q :=
  match vs with
  | first :: _ => distance (last vs first) first
  | [] => 0
  end.

Definition pathLength (vs : list Point) (closed : bool) : Q :=
  openLength vs + (if closed then wrapLength vs else 0).

End GeodesicMetrics.

(** [SnapResolver]: [v], at index [i], is within the threshold and is
    the first of the vertices nearest to the click, [sd] being the
    distance on screen from the click. *)
Definition first_nearest (sd : Point -> Q) (threshold : Q)
           (points : list Point) (i : nat) (v : Point) : Prop :=
  nth_error points i = Some v /\
  sd v <= threshold /\
  (forall j w, nth_error points j = Some w -> sd v <= sd w) /\
  (forall j w, (j < i)%nat -> nth_error points j = Some w -> sd v < sd w).

(** [n] is [x] rounded to the nearest integer (halves up). *)
Definition is_round (x : Q) (n : Z) : Prop :=
  inject_Z n - (1 # 2) <= x /\ x < inject_Z n + (1 # 2).

(** [n] is the ceiling of [x]. *)
Definition is_ceil (x : Q) (n : Z) : Prop :=
  inject_Z n - 1 < x /\ x <= inject_Z n.

Fixpoint sum (l : list Q) : Q :=
  match l with
  | [] => 0
  | x :: r => x + sum r
  end.

Definition is_approved (e : DailyProgress.t) : bool :=
  match DailyProgress.status e with approved => true | _ => false end.

(** Sum of [metersCompleted] over the entries whose status is
    [approved]. *)
Definition totalCompletedMeters (ledger : list DailyProgress.t) : Q :=
  sum (map DailyProgress.metersCompleted (filter is_approved ledger)).

(** [estimatedDaysRemaining]: [None] where the specification says
    undefined or infinite. *)
Definition estimatedDaysRemaining (perimeter total rate : Q)
  : option Z :=
  if Qle_bool rate 0 then None
  else Some (Qceiling (Qmax 0 (perimeter - total) / rate)).

Inductive LedgerError : Type := InvalidInput | NotFound | InvalidTransition.

(** [ProgressLedger.setStatus] as the specification has it. *)
Definition setStatus (ledger : list DailyProgress.t) (entryId : string)
           (newStatus : Status)
  : LedgerError + list DailyProgress.t :=
  match find (fun e => String.eqb (DailyProgress.id e) entryId) ledger with
  | None => inl NotFound
  | Some e =>
      match DailyProgress.status e with
      | pending =>
          inr (map (fun p =>
                      if String.eqb (DailyProgress.id p) entryId
                      then DailyProgress.with_status p newStatus
                      else p) ledger)
      | _ => inl InvalidTransition
      end
  end.

(** [ProgressLedger.addEntry] as the specification has it, on the
    amount read from the form ([None] when it is not a number): the
    created entry and the ledger with it at the end, or
    [InvalidInput]. *)
Definition addEntry (ledger : list DailyProgress.t)
           (metersCompleted : option Q) (notes : string)
           (uuid : string) (now : Z)
  : LedgerError + (DailyProgress.t * list DailyProgress.t) :=
  match metersCompleted with
  | None => inl InvalidInput
  | Some meters =>
      if Qle_bool meters 0 then inl InvalidInput
      else
        let created :=
          DailyProgress.mk uuid now meters pending (Some notes) None in
        inr (created, ledger ++ [created])
  end.

(** A ledger [after] the call agrees with the specification's
    [setStatus]: untouched on an error, the new ledger otherwise. *)
Definition setStatus_agrees (ledger : list DailyProgress.t)
           (entryId : string) (newStatus : Status)
           (after : list DailyProgress.t) : Prop :=
  match setStatus ledger entryId newStatus with
  | inl _ => after = ledger
  | inr l => after = l
  end.

(** The phases of the capture machine, read off the editor's flags. *)
Definition Empty (st : SiteEditor.State) : Prop :=
  SiteEditor.points st = [] /\
  SiteEditor.isDrawing st = true /\ SiteEditor.isFinished st = false.

Definition Finished (st : SiteEditor.State) : Prop :=
  SiteEditor.isDrawing st = false /\ SiteEditor.isFinished st = true.

Definition Drawing (st : SiteEditor.State) : Prop :=
  SiteEditor.points st <> [] /\
  SiteEditor.isDrawing st = true /\ SiteEditor.isFinished st = false.

(** A valid Site of the data model: closure flag, commitment rate
    (not negative) and ledger present, every entry with a positive
    amount. *)
Definition valid_site (s : Site.t) : Prop :=
  (exists c, Site.isClosed s = Some c) /\
  (exists r, Site.contractorCommitmentPerDay s = Some r /\ 0 <= r) /\
  (exists l, Site.dailyProgress s = Some l /\
             Forall (fun e => 0 < DailyProgress.metersCompleted e) l).

End Spec.

(** ** The numbers of the program: binary64

    The figures the components compute are IEEE 754 doubles.  The
    definitions of this module are the same code as above with every
    [number] a [float] and every operation the correctly rounded one of
    the primitive floats; they are the ones to read where a result
    depends on the rounding of an operation. *)

Module Double.

Local Open Scope float_scope.

(** The exact value of a double that is a number; [None] for [NaN]
    and the two infinities. *)
Definition value (x : float) : option Q :=
  match Prim2SF x with
  | S754_zero _ => Some 0%Q
  | S754_finite s m e =>
      Some (inject_Z (if s then Z.neg m else Z.pos m) * Qpower 2 e)%Q
  | S754_infinity _ | S754_nan => None
  end.

Definition signbit (x : float) : bool :=
  match Prim2SF x with
  | S754_zero s | S754_infinity s | S754_finite s _ _ => s
  | S754_nan => false
  end.

Definition is_zero (x : float) : bool :=
  match Prim2SF x with
  | S754_zero _ => true
  | _ => false
  end.

(** Two doubles are the same number: equal, or both a zero (the sign of
    a zero is not shown by the panel). *)
Definition same_number (x y : float) : Prop :=
  x = y \/ (is_zero x = true /\ is_zero y = true).

(** The double nearest to an integer. *)
Definition of_Z (n : Z) : float :=
  SF2Prim (binary_normalize prec emax n 0 false).

(** The double [Math.round] and [Math.ceil] return for the integer [n]
    they reach from a number of sign bit [negative]: a zero keeps the
    sign of the argument. *)
Definition of_rounded (negative : bool) (n : Z) : float :=
  if (n =? 0)%Z then (if negative then (-0) else 0) else of_Z n.

(** [Math.round x]: the integer nearest to the value of [x], halves
    going up; [NaN] and the infinities are returned as they are. *)
Definition Math_round (x : float) : float :=
  match value x with
  | Some q => of_rounded (signbit x) (JS.Math_round q)
  | None => x
  end.

(** [Math.ceil x] *)
Definition Math_ceil (x : float) : float :=
  match value x with
  | Some q => of_rounded (signbit x) (JS.Math_ceil q)
  | None => x
  end.

(** [isNaN x] on a number. *)
Definition isNaN (x : float) : bool := negb (x =? x).

(** [Math.min a b] and [Math.max a b]: [NaN] if either is, and [-0]
    below [+0]. *)
Definition Math_min (a b : float) : float :=
  if isNaN a || isNaN b then nan
  else if a <? b then a
  else if b <? a then b
  else if signbit a then a else b.

Definition Math_max (a b : float) : float :=
  if isNaN a || isNaN b then nan
  else if a <? b then b
  else if b <? a then a
  else if signbit a then b else a.

(** [x > y] *)
Definition gt (x y : float) : bool := y <? x.

(** *** [types.ts] *)

Record Point : Type := mkPoint { lat : float; lng : float }.

Record SiteMetrics : Type := mkSiteMetrics {
  perimeterMeters : float;
  vertexCount : nat;
  estimatedWalkTimeMinutes : float
}.

Module DailyProgress.
Record t : Type := mk {
  id : string;
  date : Z;
  metersCompleted : float;
  status : Status;
  notes : option string;
  customTileUrl : option string
}.
End DailyProgress.

(** *** [MapCanvas.tsx] *)

Module MapCanvas.

Section Metrics.

(** [L.latLng(a).distanceTo(L.latLng(b))] *)
Variable distanceTo : Point -> Point -> float.

(** One turn of the loop body: the length of the segment from
    [points[i]] to [points[(i + 1) % points.length]]. *)
Definition segment (points : list Point) (i : nat) : option float :=
  match nth_error points i,
        nth_error points ((i + 1) mod length points) with
  | Some p1, Some p2 => Some (distanceTo p1 p2)
  | _, _ => None
  end.

(** [for (let i = ..; i < limit; i++) perimeter += ...], with [n] the
    number of turns left. *)
Fixpoint perimeterLoop (points : list Point) (n i : nat) (perimeter : float)
  : option float :=
  match n with
  | O => Some perimeter
  | S n' =>
      match segment points i with
      | Some d => perimeterLoop points n' (S i) (perimeter + d)
      | None => None
      end
  end.

(** [calculateMetrics(points, isClosed)] *)
Definition calculateMetrics (points : list Point) (isClosed : bool)
  : option SiteMetrics :=
  if (length points <? 2)%nat then
    Some (mkSiteMetrics 0 (length points) 0)
  else
    let limit :=
      if isClosed then length points else (length points - 1)%nat in
    match perimeterLoop points limit 0 0 with
    | Some perimeter =>
        let walkTime := perimeter / 83.33 in
        Some (mkSiteMetrics
                (Math_round (perimeter * 100) / 100)
                (length points)
                (Math_round (walkTime * 10) / 10))
    | None => None
    end.

End Metrics.

End MapCanvas.

(** *** [SiteEditor.tsx]: the derived figures of the progress panel *)

Module SiteEditor.

(** [dailyProgress.reduce((sum, p) => sum + (p.status === 'approved' ?
    p.metersCompleted : 0), 0)] *)
Definition totalCompleted (ledger : list DailyProgress.t) : float :=
  fold_left
    (fun sum p =>
       sum + (if Status_eqb (DailyProgress.status p) approved
              then DailyProgress.metersCompleted p else 0))
    ledger 0.

Definition progressPercentage (perimeter total : float) : float :=
  if gt perimeter 0
  then Math_min 100 (Math_round ((total / perimeter) * 100))
  else 0.

Definition daysRemaining (perimeter total commitment : float) : float :=
  if gt commitment 0
  then Math_ceil (Math_max 0 (perimeter - total) / commitment)
  else 0.

End SiteEditor.

(** *** The specification's wording, on doubles

    These follow the text of the specification: which lengths are
    added, in which order, and where the result is rounded. *)

Module Spec.

Section GeodesicMetrics.

Variable distance : Point -> Point -> float.

(** The distances between consecutive vertices, in order. *)
Fixpoint consecutive (vs : list Point) : list float :=
  match vs with
  | a :: rest =>
      match rest with
      | b :: _ => distance a b :: consecutive rest
      | [] => []
      end
  | [] => []
  end.

(** The segment that closes a polygon: last vertex back to first. *)
Definition wrap (vs : list Point) : list float :=
  match vs with
  | first :: _ => [distance (last vs first) first]
  | [] => []
  end.

(** The sum of a list of lengths, at full precision: each addition is
    one addition of doubles, from the first length to the last. *)
Definition sum (lengths : list float) : float :=
  fold_left PrimFloat.add lengths 0.

Definition pathLength (vs : list Point) (closed : bool) : float :=
  sum (consecutive vs ++ (if closed then wrap vs else [])).



End GeodesicMetrics.

Definition is_approved (e : DailyProgress.t) : bool :=
  match DailyProgress.status e with approved => true | _ => false end.

(** Sum of [metersCompleted] over the entries whose status is
    [approved]. *)
Definition totalCompletedMeters (ledger : list DailyProgress.t) : float :=
  sum (map DailyProgress.metersCompleted (filter is_approved ledger)).

(** [min(100, round(100 x total / perimeter))], 0 for a perimeter of 0,
    with the operations of doubles in the order they are written. *)
Definition completionPercentage (perimeter total : float) : float :=
  if perimeter =? 0 then 0
  else Math_min 100 (Math_round (100 * total / perimeter)).

End Spec.

(** *** Sample data: a fence along a straight line *)

Module Sample.

(** The distance between two marks on a line, the position of a mark
    held in [lat]. *)
Definition along (a b : Point) : float := abs (lat a - lat b).

Definition mark (x : float) : Point := mkPoint x 0.

Definition entry (id : string) (m : float) (s : Status) : DailyProgress.t :=
  DailyProgress.mk id 1700000000000%Z m s None None.

End Sample.

End Double.

(** ** Concrete collaborators and sample data *)

Module Sample.

(** A distance on points that can be computed with rationals. *)
Definition taxicab (a b : Point) : Q :=
  Qabs (lat a - lat b) + Qabs (lng a - lng b).

(** A flat screen: a vertex is drawn at its own coordinates. *)
Definition project (p : Point) : Point := p.

(** [parseFloat] on the three inputs the samples type. *)
Definition parseFloat (s : string) : option Q :=
  if String.eqb s "120" then Some 120
  else if String.eqb s "-5" then Some (-5 # 1)
  else if String.eqb s "0" then Some 0
  else None.

Definition a : Point := mkPoint 0 0.
Definition b : Point := mkPoint 0 100.
Definition c : Point := mkPoint 100 100.
Definition d : Point := mkPoint 100 0.
Definition square : list Point := [a; b; c; d].

Definition entry (id : string) (m : Q) (s : Status) : DailyProgress.t :=
  DailyProgress.mk id 1700000000000%Z m s None None.

Definition site (ps : list Point) (m : SiteMetrics) (rate : Q)
           (ledger : list DailyProgress.t) : Site.t :=
  Site.mk "s1" "North fence" 1700000000000%Z ps m (Some true) None
          (Some rate) (Some ledger).

Definition noMetrics : SiteMetrics := mkSiteMetrics 0 0 0.

Definition state (ps : list Point) (drawing finished : bool)
           (ledger : list DailyProgress.t) (meters : string)
  : SiteEditor.State :=
  SiteEditor.mkState ps drawing finished true true EmptyString false 50
                     ledger meters "north side".

End Sample.

(** ** [SiteRecorder.tsx] *)

Module SiteRecorder.

(** The cells of the recorder that [handleSave] and the position
    callback read or write. *)
Record State : Type := mkState {
  points : list Point;
  currentLocation : option (Q * Q);
  siteName : string
}.

(** The callback given to [watchPosition], for a fix at
    [(latitude, longitude)]. *)
Definition onPosition (latitude longitude : Q) (st : State) : State :=
  let newPoint := mkPoint latitude longitude in
  mkState (points st ++ [newPoint])
          (Some (lat newPoint, lng newPoint))
          (siteName st).

(** The fixes of a recording, in the order they arrive. *)
Definition track (fixes : list (Q * Q)) (st : State) : State :=
  fold_left (fun s pos => onPosition (fst pos) (snd pos) s) fixes st.

Section Save.

Variable distanceTo : Point -> Point -> Q.

(** [handleSave]: the site handed to [onSave]; [None] when
    [calculateMetrics] throws. *)
Definition handleSave (uuid : string) (now : Z) (st : State)
  : option Site.t :=
  match MapCanvas.calculateMetrics distanceTo (points st) false with
  | Some m =>
      Some (Site.mk uuid (siteName st) now (points st) m (Some false)
                    None None None)
  | None => None
  end.

End Save.

End SiteRecorder.

(** ** [ProjectView.tsx] *)

Module ProjectView.

Section Create.

(** [String.prototype.trim] *)
Variable trim : string -> string.

(** [handleCreate]: the site handed to [onCreateSite], [None] when the
    handler returns at its guard. *)
Definition handleCreate (uuid : string) (now : Z) (newSiteName : string)
  : option Site.t :=
  if String.eqb (trim newSiteName) EmptyString then None
  else Some (Site.mk uuid newSiteName now [] (mkSiteMetrics 0 0 0)
                     (Some true) None None None).

End Create.

End ProjectView.

(** ** [App.tsx] *)

Module Project.

Record t : Type := mk {
  id : string;
  name : string;
  description : string;
  createdAt : Z;
  sites : list Site.t
}.

(** [{ ...p, sites }] *)
Definition with_sites (p : t) (s : list Site.t) : t :=
  mk (id p) (name p) (description p) (createdAt p) s.

End Project.

Module App.

(** The cells of [App]; [loading] is left out, nothing reads it. *)
Record State : Type := mkState {
  isAuthenticated : bool;
  projects : list Project.t;
  currentProject : option Project.t;
  currentSite : option Site.t;
  currentStreetViewSite : option Site.t;
  isRecordingSite : bool
}.

Definition initial : State := mkState false [] None None None false.

Definition setProjects (v : list Project.t) (st : State) : State :=
  mkState (isAuthenticated st) v (currentProject st) (currentSite st)
          (currentStreetViewSite st) (isRecordingSite st).

Definition setCurrentProject (v : option Project.t) (st : State) : State :=
  mkState (isAuthenticated st) (projects st) v (currentSite st)
          (currentStreetViewSite st) (isRecordingSite st).

Definition setCurrentSite (v : option Site.t) (st : State) : State :=
  mkState (isAuthenticated st) (projects st) (currentProject st) v
          (currentStreetViewSite st) (isRecordingSite st).

Definition setCurrentStreetViewSite (v : option Site.t) (st : State)
  : State :=
  mkState (isAuthenticated st) (projects st) (currentProject st)
          (currentSite st) v (isRecordingSite st).

Definition setIsRecordingSite (v : bool) (st : State) : State :=
  mkState (isAuthenticated st) (projects st) (currentProject st)
          (currentSite st) (currentStreetViewSite st) v.

Definition setIsAuthenticated (v : bool) (st : State) : State :=
  mkState v (projects st) (currentProject st) (currentSite st)
          (currentStreetViewSite st) (isRecordingSite st).

(** [projects.map((p) => (p.id === currentProject.id ? updatedProject : p))] *)
Definition replaceProject (cp updated : Project.t) (ps : list Project.t)
  : list Project.t :=
  map (fun p => if String.eqb (Project.id p) (Project.id cp)
                then updated else p) ps.

(** [fetchProjects], once the request has settled: [data] is the body
    of an ok response, [None] stands for any other outcome. *)
Definition fetchProjects (data : option (list Project.t)) (st : State)
  : State :=
  match data with
  | Some ps => setProjects ps st
  | None => st
  end.

(** The three handlers below wait for a request before they write a
    cell.  What they write then is computed from the values the cells
    had when the handler was called: [projects0] and [cp] in the
    [..Settled] definitions.  [response] is the body of an ok response;
    [None] stands for any other outcome of the request. *)

Definition createProjectSettled (projects0 : list Project.t)
           (project : Project.t) (response : option Project.t)
           (st : State) : State :=
  setProjects (projects0 ++ [JS.nullish response project]) st.

Definition createSiteSettled (projects0 : list Project.t) (cp : Project.t)
           (site : Site.t) (response : option Site.t) (st : State)
  : State :=
  let newSite := JS.nullish response site in
  let updatedProject :=
    Project.with_sites cp (Project.sites cp ++ [newSite]) in
  setCurrentProject (Some updatedProject)
    (setProjects (replaceProject cp updatedProject projects0) st).

Definition saveSiteSettled (projects0 : list Project.t) (cp : Project.t)
           (updatedSite : Site.t) (st : State) : State :=
  let updatedProject :=
    Project.with_sites cp
      (map (fun s => if String.eqb (Site.id s) (Site.id updatedSite)
                     then updatedSite else s)
           (Project.sites cp)) in
  setCurrentSite None
    (setCurrentProject (Some updatedProject)
       (setProjects (replaceProject cp updatedProject projects0) st)).

(** The handlers run from call to end with nothing in between. *)
Definition handleCreateProject (project : Project.t)
           (response : option Project.t) (st : State) : State :=
  createProjectSettled (projects st) project response st.

Definition handleCreateSite (site : Site.t) (response : option Site.t)
           (st : State) : State :=
  match currentProject st with
  | None => st
  | Some cp => createSiteSettled (projects st) cp site response st
  end.

Definition handleSaveSite (updatedSite : Site.t) (st : State) : State :=
  match currentProject st with
  | None => st
  | Some cp => saveSiteSettled (projects st) cp updatedSite st
  end.

(** The screens of the application. *)
Inductive View : Type :=
| SignIn | Dashboard | ProjectView | SiteEditor | StreetView | SiteRecorder.

Definition View_eqb (a b : View) : bool :=
  match a, b with
  | SignIn, SignIn | Dashboard, Dashboard | ProjectView, ProjectView
  | SiteEditor, SiteEditor | StreetView, StreetView
  | SiteRecorder, SiteRecorder => true
  | _, _ => false
  end.

(** Truthiness of a cell that holds an object or [null]. *)
Definition truthy {A : Type} (o : option A) : bool :=
  match o with Some _ => true | None => false end.

(** [cond && <V />]: the element when the condition holds. *)
Definition when (cond : bool) (v : View) : list View :=
  if cond then [v] else [].

(** The screens the component returns for a state: the sign-in form
    alone when not authenticated, else every screen whose condition
    holds. *)
Definition rendered (st : State) : list View :=
  let cp := truthy (currentProject st) in
  let cs := truthy (currentSite st) in
  let sv := truthy (currentStreetViewSite st) in
  let rec := isRecordingSite st in
  if negb (isAuthenticated st) then [SignIn]
  else
    when (negb cp && negb cs && negb sv && negb rec) Dashboard
    ++ when (cp && negb cs && negb sv && negb rec) ProjectView
    ++ when (cp && cs && negb rec) SiteEditor
    ++ when (cp && sv && negb rec) StreetView
    ++ when (cp && rec) SiteRecorder.

(** What can happen to the component.  A callback of a screen is
    called: the cards of the dashboard and of the project view call
    theirs with the project or site they show, named here by its index.
    Or a request settles, at any later time and with whatever the
    handler that sent it had read.  A call of [onCreateProject],
    [onCreateSite] or [onSave] writes no cell before its request
    settles; the recorder's [onSave] leaves the recorder at once. *)
Inductive Event : Type :=
| OnSignIn
| OnProjectSelect (i : nat)
| ProjectOnBack
| OnSiteSelect (i : nat)
| OnStreetViewSelect (i : nat)
| OnRecordSite
| EditorOnBack
| StreetViewOnClose
| RecorderOnBack
| RecorderOnSave
| FetchSettled (data : option (list Project.t))
| CreateProjectSettled (projects0 : list Project.t) (project : Project.t)
                       (response : option Project.t)
| CreateSiteSettled (projects0 : list Project.t) (cp : Project.t)
                    (site : Site.t) (response : option Site.t)
| SaveSiteSettled (projects0 : list Project.t) (cp : Project.t)
                  (updatedSite : Site.t).

(** The screen that holds the callback; a request has none. *)
Definition source (e : Event) : option View :=
  match e with
  | OnSignIn => Some SignIn
  | OnProjectSelect _ => Some Dashboard
  | ProjectOnBack | OnSiteSelect _ | OnStreetViewSelect _
  | OnRecordSite => Some ProjectView
  | EditorOnBack => Some SiteEditor
  | StreetViewOnClose => Some StreetView
  | RecorderOnBack | RecorderOnSave => Some SiteRecorder
  | FetchSettled _ | CreateProjectSettled _ _ _
  | CreateSiteSettled _ _ _ _ | SaveSiteSettled _ _ _ => None
  end.

Definition siteOfCurrentProject (i : nat) (st : State) : option Site.t :=
  match currentProject st with
  | Some cp => nth_error (Project.sites cp) i
  | None => None
  end.

(** What the event writes. *)
Definition handle (e : Event) (st : State) : State :=
  match e with
  | OnSignIn => setIsAuthenticated true st
  | OnProjectSelect i =>
      match nth_error (projects st) i with
      | Some p => setCurrentProject (Some p) st
      | None => st
      end
  | ProjectOnBack => setCurrentProject None st
  | OnSiteSelect i =>
      match siteOfCurrentProject i st with
      | Some s => setCurrentSite (Some s) st
      | None => st
      end
  | OnStreetViewSelect i =>
      match siteOfCurrentProject i st with
      | Some s => setCurrentStreetViewSite (Some s) st
      | None => st
      end
  | OnRecordSite => setIsRecordingSite true st
  | EditorOnBack => setCurrentSite None st
  | StreetViewOnClose => setCurrentStreetViewSite None st
  | RecorderOnBack => setIsRecordingSite false st
  | RecorderOnSave => setIsRecordingSite false st
  | FetchSettled data => fetchProjects data st
  | CreateProjectSettled projects0 project response =>
      createProjectSettled projects0 project response st
  | CreateSiteSettled projects0 cp site response =>
      createSiteSettled projects0 cp site response st
  | SaveSiteSettled projects0 cp updatedSite =>
      saveSiteSettled projects0 cp updatedSite st
  end.

(** A callback can only be called by a screen that is on display. *)
Definition dispatch (e : Event) (st : State) : State :=
  match source e with
  | None => handle e st
  | Some v => if existsb (View_eqb v) (rendered st) then handle e st else st
  end.

Definition run (events : list Event) (st : State) : State :=
  fold_left (fun s e => dispatch e s) events st.

(** The cells that decide what is on display, as conditions. *)
Definition shape (st : State) : bool * bool * bool * bool :=
  (truthy (currentProject st), truthy (currentSite st),
   truthy (currentStreetViewSite st), isRecordingSite st).

(** The five combinations the screens are written for. *)
Definition shape_ok (st : State) : Prop :=
  shape st = (false, false, false, false) \/
  shape st = (true, false, false, false) \/
  shape st = (true, true, false, false) \/
  shape st = (true, false, true, false) \/
  shape st = (true, false, false, true).

End App.

(** ** [StreetView.tsx] *)

Module StreetView.

Record TourNode : Type := mkNode {
  id : string;
  panorama : string;
  name : string;
  gps : Q * Q;
  links : list string;
  position : option Point
}.

(** The digits of [i], as a template literal prints a count. *)
Definition digits (i : nat) : string :=
  NilEmpty.string_of_uint (Nat.to_uint i).

(** [`node-${i}`] *)
Definition nodeId (i : nat) : string := ("node-" ++ digits i)%string.

Definition samplePanos : list string :=
  ["https://photo-sphere-viewer-data.netlify.app/assets/tour/key-biscayne-1.jpg";
   "https://photo-sphere-viewer-data.netlify.app/assets/tour/key-biscayne-2.jpg";
   "https://photo-sphere-viewer-data.netlify.app/assets/tour/key-biscayne-3.jpg";
   "https://photo-sphere-viewer-data.netlify.app/assets/tour/key-biscayne-4.jpg";
   "https://photo-sphere-viewer-data.netlify.app/assets/tour/key-biscayne-5.jpg";
   "https://photo-sphere-viewer-data.netlify.app/assets/tour/key-biscayne-6.jpg"]%string.

(** [site.isClosed] as a condition: [undefined] is falsy. *)
Definition closed (site : Site.t) : bool :=
  match Site.isClosed site with Some b => b | None => false end.

(** The [links] array built for the point of index [i]. *)
Definition linksOf (site : Site.t) (i : nat) : list string :=
  let n := length (Site.points site) in
  (if (0 <? i)%nat then [nodeId (i - 1)] else [])
  ++ (if (i <? n - 1)%nat then [nodeId (i + 1)] else [])
  ++ (if closed site && (i =? n - 1)%nat && (2 <? n)%nat
      then [nodeId 0] else [])
  ++ (if closed site && (i =? 0)%nat && (2 <? n)%nat
      then [nodeId (n - 1)] else []).

(** [array.map((x, i) => f x i)], counting from [i]. *)
Fixpoint mapi {A B : Type} (f : A -> nat -> B) (i : nat) (l : list A)
  : list B :=
  match l with
  | [] => []
  | x :: r => f x i :: mapi f (S i) r
  end.

Definition generatedNodes (site : Site.t) : list TourNode :=
  mapi (fun p i =>
          mkNode (nodeId i)
                 (nth (i mod length samplePanos) samplePanos EmptyString)
                 ("Point " ++ digits (i + 1))%string
                 (lng p, lat p)
                 (linksOf site i)
                 (Some p))
       0 (Site.points site).

Record State : Type := mkState {
  currentNodeId : string;
  nodes : list TourNode;
  showUploader : bool
}.

(** The cells after the effect that runs when the screen opens on
    [site]. *)
Definition opened (site : Site.t) : State :=
  if (length (Site.points site) =? 0)%nat then mkState EmptyString [] true
  else
    let generated := generatedNodes site in
    mkState (match generated with n :: _ => id n | [] => EmptyString end)
            generated false.

(** [handleTourReady] *)
Definition handleTourReady (tourNodes : list TourNode) (st : State)
  : State :=
  let enrichedNodes :=
    map (fun n =>
           mkNode (id n) (panorama n) (name n) (gps n) (links n)
                  (Some (mkPoint (snd (gps n)) (fst (gps n)))))
        tourNodes in
  mkState (match enrichedNodes with n :: _ => id n | [] => EmptyString end)
          enrichedNodes false.

(** [nodes.findIndex(n => n.id === currentNodeId)]: [-1] when no node
    has that id. *)
Fixpoint findIndex (target : string) (l : list TourNode) (i : Z) : Z :=
  match l with
  | [] => (-1)%Z
  | n :: r => if String.eqb (id n) target then i
              else findIndex target r (i + 1)%Z
  end.

Definition currentIndex (st : State) : Z :=
  findIndex (currentNodeId st) (nodes st) 0%Z.

(** [nodes[k]] for a number [k]. *)
Definition nodeAt (st : State) (k : Z) : option TourNode :=
  if (k <? 0)%Z then None else nth_error (nodes st) (Z.to_nat k).

(** [handlePrev] and [handleNext]: the id handed to [navigateToNode],
    [None] when the handler does nothing. *)
Definition handlePrev (st : State) : option string :=
  if (0 <? currentIndex st)%Z
  then option_map id (nodeAt st (currentIndex st - 1))
  else None.

Definition handleNext (st : State) : option string :=
  if (currentIndex st <? Z.of_nat (length (nodes st)) - 1)%Z
  then option_map id (nodeAt st (currentIndex st + 1))
  else None.

(** Which nodes the node of index [i] links to, among [n] points. *)
Definition adjacent (n : nat) (closed : bool) (i j : nat) : Prop :=
  ((0 < i)%nat /\ j = (i - 1)%nat) \/
  ((i < n - 1)%nat /\ j = (i + 1)%nat) \/
  (closed = true /\ i = (n - 1)%nat /\ (2 < n)%nat /\ j = 0%nat) \/
  (closed = true /\ i = 0%nat /\ (2 < n)%nat /\ j = (n - 1)%nat).

End StreetView.

(** ** Reading a ledger *)

Module Ledger.

(** The fields of an entry other than its status. *)
Definition content (p : DailyProgress.t)
  : string * Z * Q * option string * option string :=
  (DailyProgress.id p, DailyProgress.date p, DailyProgress.metersCompleted p,
   DailyProgress.notes p, DailyProgress.customTileUrl p).

(** Every entry claims a positive amount. *)
Definition positive (ledger : list DailyProgress.t) : Prop :=
  Forall (fun p => 0 < DailyProgress.metersCompleted p) ledger.

End Ledger.

(** ** Sample values for the screens above *)

Module Demo.

(** [trim] on names without blanks at either end. *)
Definition trim (s : string) : string := s.

Definition openSite (ps : list Point) (closed : option bool) : Site.t :=
  Site.mk "s2" "Track" 1700000000000%Z ps (mkSiteMetrics 0 0 0) closed
          None None None.

Definition project (sites : list Site.t) : Project.t :=
  Project.mk "p1" "Harbour" "" 1700000000000%Z sites.

End Demo.

(** * Properties *)

(** ** Rounding *)

Lemma Math_round_comp (x y : Q) : x == y -> JS.Math_round x = JS.Math_round y.
Proof.
  intros E. unfold JS.Math_round. now rewrite E.
Qed.

Lemma Math_round_le (x y : Q) : x <= y -> (JS.Math_round x <= JS.Math_round y)%Z.
Proof.
  intros L. unfold JS.Math_round. apply Qfloor_resp_le. lra.
Qed.

Lemma Math_round_is_round (x : Q) : Spec.is_round x (JS.Math_round x).
Proof.
  unfold Spec.is_round, JS.Math_round.
  pose proof (Qfloor_le (x + (1 # 2))) as Hlo.
  pose proof (Qlt_floor (x + (1 # 2))) as Hhi.
  rewrite inject_Z_plus in Hhi.
  change (inject_Z 1) with 1 in Hhi.
  split; lra.
Qed.

Lemma Math_ceil_is_ceil (x : Q) : Spec.is_ceil x (JS.Math_ceil x).
Proof.
  unfold Spec.is_ceil, JS.Math_ceil.
  pose proof (Qle_ceiling x) as Hhi.
  pose proof (Qceiling_lt x) as Hlo.
  unfold Z.sub in Hlo. rewrite inject_Z_plus, inject_Z_opp in Hlo.
  change (inject_Z 1) with 1 in Hlo.
  split; lra.
Qed.

Lemma JS_le_iff (x y : Q) : JS.le x y = true <-> x <= y.
Proof. unfold JS.le. apply Qle_bool_iff. Qed.

Lemma JS_lt_iff (x y : Q) : JS.lt x y = true <-> x < y.
Proof.
  unfold JS.lt. rewrite negb_true_iff.
  split.
  - intros H. apply Qnot_le_lt. intros L.
    apply Qle_bool_iff in L. congruence.
  - intros H. destruct (Qle_bool y x) eqn:E; [|reflexivity].
    apply Qle_bool_iff in E. lra.
Qed.

Lemma JS_lt_false_iff (x y : Q) : JS.lt x y = false <-> y <= x.
Proof.
  unfold JS.lt. rewrite negb_false_iff. apply Qle_bool_iff.
Qed.

Lemma Math_max_Qmax (x y : Q) : JS.Math_max x y == Qmax x y.
Proof.
  unfold JS.Math_max. destruct (JS.le x y) eqn:E.
  - apply JS_le_iff in E. symmetry. now apply Q.max_r.
  - assert (y <= x).
    { destruct (Qlt_le_dec x y) as [L|L]; [|exact L].
      assert (JS.le x y = true) by (apply JS_le_iff; lra). congruence. }
    symmetry. now apply Q.max_l.
Qed.

(** ** The loop of [calculateMetrics] *)

Section MetricsFacts.

Variable distanceTo : Point -> Point -> Q.

Let segment := MapCanvas.segment distanceTo.
Let perimeterLoop := MapCanvas.perimeterLoop distanceTo.
Let openLength := Spec.openLength distanceTo.
Let wrapLength := Spec.wrapLength distanceTo.

Lemma segment_inner (pre tl : list Point) (a b : Point) :
  segment (pre ++ a :: b :: tl) (length pre) = Some (distanceTo a b).
Proof.
  unfold segment, MapCanvas.segment.
  rewrite nth_error_app2 by lia. rewrite Nat.sub_diag. simpl nth_error.
  rewrite Nat.mod_small by (rewrite length_app; simpl; lia).
  rewrite nth_error_app2 by lia.
  replace (length pre + 1 - length pre)%nat with 1%nat by lia.
  reflexivity.
Qed.

Lemma nth_error_last (ps : list Point) (dflt : Point) :
  ps <> [] -> nth_error ps (length ps - 1) = Some (last ps dflt).
Proof.
  induction ps as [|x [|y r] IH]; intros NE.
  - congruence.
  - reflexivity.
  - change (last (x :: y :: r) dflt) with (last (y :: r) dflt).
    rewrite <- IH by discriminate. simpl.
    now rewrite Nat.sub_0_r.
Qed.

Lemma segment_wrap (first : Point) (rest : list Point) :
  segment (first :: rest) (length (first :: rest) - 1)
  = Some (distanceTo (last (first :: rest) first) first).
Proof.
  unfold segment, MapCanvas.segment.
  rewrite (nth_error_last (first :: rest) first) by discriminate.
  replace (length (first :: rest) - 1 + 1)%nat
    with (length (first :: rest)) by (simpl; lia).
  rewrite Nat.Div0.mod_same. reflexivity.
Qed.

Lemma perimeterLoop_open (rest pre : list Point) (acc : Q) :
  rest <> [] ->
  exists r,
    perimeterLoop (pre ++ rest) (length rest - 1) (length pre) acc = Some r
    /\ r == acc + openLength rest.
Proof.
  revert pre acc.
  induction rest as [|a [|b tl] IH]; intros pre acc NE.
  - congruence.
  - exists acc. split; [reflexivity|]. simpl. lra.
  - destruct (IH (pre ++ [a]) (acc + distanceTo a b)) as [r [Hr Er]];
      [discriminate|].
    exists r. split.
    + change (length (a :: b :: tl) - 1)%nat with (S (length tl)).
      unfold perimeterLoop. simpl MapCanvas.perimeterLoop.
      fold segment. rewrite segment_inner.
      rewrite <- app_assoc, length_app in Hr. simpl in Hr.
      rewrite Nat.sub_0_r, Nat.add_1_r in Hr. exact Hr.
    + rewrite Er.
      change (openLength (a :: b :: tl))
        with (distanceTo a b + openLength (b :: tl)).
      lra.
Qed.

Lemma perimeterLoop_split (ps : list Point) (n m i : nat) (acc : Q) :
  perimeterLoop ps (n + m) i acc
  = match perimeterLoop ps n i acc with
    | Some r => perimeterLoop ps m (i + n) r
    | None => None
    end.
Proof.
  revert i acc. induction n as [|n IH]; intros i acc.
  - simpl. now rewrite Nat.add_0_r.
  - simpl. unfold perimeterLoop in *. simpl.
    destruct (MapCanvas.segment distanceTo ps i); [|reflexivity].
    rewrite IH. now rewrite Nat.add_succ_r.
Qed.

Lemma perimeterLoop_one (ps : list Point) (i : nat) (acc : Q) :
  perimeterLoop ps 1 i acc
  = match segment ps i with
    | Some d => Some (acc + d)
    | None => None
    end.
Proof. reflexivity. Qed.

(** The loop always returns, and what it returns is the length of the
    path as the specification words it. *)
Lemma perimeterLoop_pathLength (ps : list Point) (isClosed : bool) :
  ps <> [] ->
  exists r,
    perimeterLoop ps
      (if isClosed then length ps else (length ps - 1)%nat) 0 0 = Some r
    /\ r == Spec.pathLength distanceTo ps isClosed.
Proof.
  intros NE.
  destruct (perimeterLoop_open ps [] 0 NE) as [r [Hr Er]].
  simpl in Hr. unfold Spec.pathLength. fold openLength.
  destruct isClosed.
  - destruct ps as [|first rest]; [congruence|].
    exists (r + distanceTo (last (first :: rest) first) first). split.
    + replace (length (first :: rest))
        with ((length (first :: rest) - 1) + 1)%nat at 1 by (simpl; lia).
      rewrite perimeterLoop_split, Hr.
      rewrite Nat.add_0_l, perimeterLoop_one, segment_wrap. reflexivity.
    + rewrite Er. unfold Spec.wrapLength. lra.
  - exists r. split; [exact Hr|]. rewrite Er. lra.
Qed.

(** The returned record, whatever the length of the list. *)
Lemma calculateMetrics_returns (ps : list Point) (isClosed : bool) :
  exists perimeter,
    perimeter == Spec.pathLength distanceTo ps isClosed /\
    MapCanvas.calculateMetrics distanceTo ps isClosed
    = Some (if (length ps <? 2)%nat
            then mkSiteMetrics 0 (length ps) 0
            else mkSiteMetrics
                   (inject_Z (JS.Math_round (perimeter * 100)) / 100)
                   (length ps)
                   (inject_Z
                      (JS.Math_round
                         (perimeter / MapCanvas.WALK_SPEED * 10)) / 10)).
Proof.
  unfold MapCanvas.calculateMetrics.
  destruct (length ps <? 2)%nat eqn:Hlen.
  - exists (Spec.pathLength distanceTo ps isClosed).
    split; reflexivity.
  - assert (NE : ps <> []).
    { intros ->. simpl in Hlen. discriminate. }
    destruct (perimeterLoop_pathLength ps isClosed NE) as [r [Hr Er]].
    exists r. split; [exact Er|].
    unfold perimeterLoop in Hr. rewrite Hr. reflexivity.
Qed.

End MetricsFacts.

(** ** Monotonicity of the measured length *)

Section Monotone.

Variable distanceTo : Point -> Point -> Q.
Hypothesis distanceTo_nonneg : forall a b, 0 <= distanceTo a b.

Let openLength := Spec.openLength distanceTo.

Lemma openLength_nonneg (vs : list Point) : 0 <= openLength vs.
Proof.
  induction vs as [|a [|b tl] IH]; simpl; try lra.
  change (0 <= distanceTo a b + openLength (b :: tl)).
  pose proof (distanceTo_nonneg a b). lra.
Qed.


Lemma pathLength_nonneg (vs : list Point) (closed : bool) :
  0 <= Spec.pathLength distanceTo vs closed.
Proof.
  unfold Spec.pathLength. pose proof (openLength_nonneg vs) as H.
  fold openLength. destruct closed; [|lra].
  unfold Spec.wrapLength. destruct vs as [|f r]; [lra|].
  pose proof (distanceTo_nonneg (last (f :: r) f) f). lra.
Qed.


End Monotone.

Lemma rounded_le (x y : Q) :
  x <= y ->
  inject_Z (JS.Math_round (x * 100)) / 100
  <= inject_Z (JS.Math_round (y * 100)) / 100.
Proof.
  intros L.
  assert (H : (JS.Math_round (x * 100) <= JS.Math_round (y * 100))%Z)
    by (apply Math_round_le; lra).
  rewrite Zle_Qle in H.
  unfold Qdiv. apply Qmult_le_compat_r; [exact H|]. discriminate.
Qed.

(** ** Sample collaborators are well behaved *)

Lemma taxicab_nonneg (a b : Point) : 0 <= Sample.taxicab a b.
Proof.
  unfold Sample.taxicab.
  pose proof (Qabs_nonneg (lat a - lat b)).
  pose proof (Qabs_nonneg (lng a - lng b)). lra.
Qed.

(** ** [calculateMetrics] against the specification *)

Section DoubleMetricsFacts.

Variable distanceTo : Double.Point -> Double.Point -> float.

Let segment := Double.MapCanvas.segment distanceTo.
Let perimeterLoop := Double.MapCanvas.perimeterLoop distanceTo.
Let consecutive := Double.Spec.consecutive distanceTo.








End DoubleMetricsFacts.


(** The figures of fences measured along a line.  A closed run out
    and back over 200.0025 m is shown as 400.01 m: the sum is a double
    just under 400.005, its product with 100 is the double 40000.5,
    and [Math.round] takes the half up.  A walk of 337.4865 m is shown
    as 4.1 minutes: the quotient by 83.33 is just under 4.05 and its
    product with 10 is the double 40.5.  Marks at 0, 1.188, 2.317 and
    3.895 measure 3.9 m walked one way and 3.89 m walked the other: the
    lengths are added in the order of the walk. *)
Lemma calculateMetrics_double_samples :
  let metrics ps closed :=
    Double.MapCanvas.calculateMetrics Double.Sample.along
      (map Double.Sample.mark ps) closed in
  metrics [0; 200.0025]%float true
  = Some (Double.mkSiteMetrics 400.01 2 4.8) /\
  metrics [0; 337.4865]%float false
  = Some (Double.mkSiteMetrics 337.49 2 4.1) /\
  metrics [0; 1.188; 2.317; 3.895]%float false
  = Some (Double.mkSiteMetrics 3.9 4 0) /\
  metrics [3.895; 2.317; 1.188; 0]%float false
  = Some (Double.mkSiteMetrics 3.89 4 0) /\
  metrics [7.5]%float true = Some (Double.mkSiteMetrics 0 1 0).
Proof. cbv zeta. repeat split; vm_compute; reflexivity. Qed.

(** C10.  The [vertexCount] of the returned metrics is the length of the
    vertex list, in both branches and for both closure flags. *)
Theorem calculateMetrics_vertexCount
        (distanceTo : Point -> Point -> Q) (vs : list Point) (closed : bool) :
  option_map vertexCount (MapCanvas.calculateMetrics distanceTo vs closed)
  = Some (length vs).
Proof.
  destruct (calculateMetrics_returns distanceTo vs closed) as [P [_ H]].
  rewrite H. now destruct (length vs <? 2)%nat.
Qed.


(** On doubles too an open path with one more vertex is the shorter
    path with one length added to the end of its sum. *)
Lemma double_consecutive_snoc
      (distanceTo : Double.Point -> Double.Point -> float)
      (vs : list Double.Point) (x p : Double.Point) :
  vs <> [] ->
  Double.Spec.consecutive distanceTo (vs ++ [p])
  = Double.Spec.consecutive distanceTo vs ++ [distanceTo (last vs x) p].
Proof.
  induction vs as [|a [|b tl] IH]; intros NE.
  - congruence.
  - reflexivity.
  - change (distanceTo a b
              :: Double.Spec.consecutive distanceTo ((b :: tl) ++ [p])
            = distanceTo a b
              :: Double.Spec.consecutive distanceTo (b :: tl)
                 ++ [distanceTo (last (b :: tl) x) p]).
    now rewrite IH by discriminate.
Qed.

Lemma double_pathLength_snoc_open
      (distanceTo : Double.Point -> Double.Point -> float)
      (vs : list Double.Point) (x p : Double.Point) :
  vs <> [] ->
  Double.Spec.pathLength distanceTo (vs ++ [p]) false
  = (Double.Spec.pathLength distanceTo vs false
     + distanceTo (last vs x) p)%float.
Proof.
  intros NE. unfold Double.Spec.pathLength, Double.Spec.sum.
  rewrite !app_nil_r, (double_consecutive_snoc distanceTo vs x p NE).
  now rewrite fold_left_app.
Qed.


(** ** The progress panel *)

Lemma fold_total_acc (ledger : list DailyProgress.t) (acc : Q) :
  fold_left
    (fun sum p =>
       sum + (if Status_eqb (DailyProgress.status p) approved
              then DailyProgress.metersCompleted p else 0))
    ledger acc
  == acc + Spec.totalCompletedMeters ledger.
Proof.
  revert acc. induction ledger as [|e l IH]; intros acc.
  - unfold Spec.totalCompletedMeters. simpl. lra.
  - simpl fold_left. rewrite IH.
    unfold Spec.totalCompletedMeters.
    destruct e as [i dt m s n u]. destruct s; simpl; lra.
Qed.

Lemma totalCompleted_sum (ledger : list DailyProgress.t) :
  SiteEditor.totalCompleted ledger == Spec.totalCompletedMeters ledger.
Proof.
  unfold SiteEditor.totalCompleted. rewrite fold_total_acc. lra.
Qed.

Lemma JS_gt_zero_iff (x : Q) : JS.gt x 0 = true <-> 0 < x.
Proof. unfold JS.gt. apply JS_lt_iff. Qed.

Lemma JS_gt_zero_false_iff (x : Q) : JS.gt x 0 = false <-> x <= 0.
Proof. unfold JS.gt. apply JS_lt_false_iff. Qed.

(** The same panel on doubles.  Adding [0] for an entry that is not
    approved changes no sum but the sign of a zero. *)

Lemma Prim2SF_inj (x y : float) : Prim2SF x = Prim2SF y -> x = y.
Proof.
  intros E. rewrite <- (SF2Prim_Prim2SF x), <- (SF2Prim_Prim2SF y).
  now rewrite E.
Qed.

Lemma double_add_zero_r (x : float) :
  Double.is_zero x = false -> (x + 0)%float = x.
Proof.
  unfold Double.is_zero. intros Z. apply Prim2SF_inj.
  rewrite add_spec. change (Prim2SF 0) with (S754_zero false).
  destruct (Prim2SF x) as [s|s| |s m e]; try reflexivity.
  discriminate.
Qed.

Lemma double_add_zero_zero (x : float) :
  Double.is_zero x = true -> Double.is_zero (x + 0)%float = true.
Proof.
  unfold Double.is_zero. rewrite add_spec.
  change (Prim2SF 0) with (S754_zero false).
  destruct (Prim2SF x) as [s|s| |s m e]; try discriminate.
  now destruct s.
Qed.

Lemma double_add_zeros (z z' m : float) :
  Double.is_zero z = true -> Double.is_zero z' = true ->
  Double.same_number (z + m)%float (z' + m)%float.
Proof.
  unfold Double.same_number, Double.is_zero. intros Z Z'.
  rewrite !add_spec.
  destruct (Prim2SF z) as [s|s| |s mz ez] eqn:Ez; try discriminate.
  destruct (Prim2SF z') as [s'|s'| |s' mz' ez'] eqn:Ez'; try discriminate.
  destruct (Prim2SF m) as [sm|sm| |sm mm em] eqn:Em.
  - right. destruct s, s', sm; split; reflexivity.
  - left. apply Prim2SF_inj. now rewrite !add_spec, Ez, Ez', Em.
  - left. apply Prim2SF_inj. now rewrite !add_spec, Ez, Ez', Em.
  - left. apply Prim2SF_inj. now rewrite !add_spec, Ez, Ez', Em.
Qed.

Lemma double_fold_total (ledger : list Double.DailyProgress.t)
      (acc acc' : float) :
  Double.same_number acc acc' ->
  Double.same_number
    (fold_left
       (fun sum p =>
          (sum + (if Status_eqb (Double.DailyProgress.status p) approved
                  then Double.DailyProgress.metersCompleted p else 0))%float)
       ledger acc)
    (fold_left PrimFloat.add
       (map Double.DailyProgress.metersCompleted
            (filter Double.Spec.is_approved ledger))
       acc').
Proof.
  revert acc acc'.
  induction ledger as [|e l IH]; intros acc acc' R; [exact R|].
  cbn [fold_left filter]. unfold Double.Spec.is_approved at 1.
  destruct (Double.DailyProgress.status e); cbn [Status_eqb map fold_left];
    apply IH.
  - destruct R as [->|[Z Z']].
    + destruct (Double.is_zero acc') eqn:Z.
      * right. split; [now apply double_add_zero_zero|exact Z].
      * left. now apply double_add_zero_r.
    + right. split; [now apply double_add_zero_zero|exact Z'].
  - destruct R as [->|[Z Z']]; [now left|now apply double_add_zeros].
  - destruct R as [->|[Z Z']].
    + destruct (Double.is_zero acc') eqn:Z.
      * right. split; [now apply double_add_zero_zero|exact Z].
      * left. now apply double_add_zero_r.
    + right. split; [now apply double_add_zero_zero|exact Z'].
Qed.

(** [Math.round] and [Math.ceil] of a double that is a number are the
    integers their definitions name, taken on the exact value of the
    double. *)
Lemma double_Math_round_is_round (x : float) (q : Q) :
  Double.value x = Some q ->
  exists n, Spec.is_round q n /\
            Double.Math_round x = Double.of_rounded (Double.signbit x) n.
Proof.
  intros V. exists (JS.Math_round q). split; [apply Math_round_is_round|].
  unfold Double.Math_round. now rewrite V.
Qed.

Lemma double_Math_ceil_is_ceil (x : float) (q : Q) :
  Double.value x = Some q ->
  exists n, Spec.is_ceil q n /\
            Double.Math_ceil x = Double.of_rounded (Double.signbit x) n.
Proof.
  intros V. exists (JS.Math_ceil q). split; [apply Math_ceil_is_ceil|].
  unfold Double.Math_ceil. now rewrite V.
Qed.

(** C4, as the specification words it, is false in two places.  Where
    the commitment rate is zero the specification has no value and the
    panel shows 0 days.  And the percentage is not the rounding of
    [100 * total / perimeter]: for 29 m of 200 m that is 15, exactly
    and with the operations of doubles in that order, and the panel,
    which divides first and multiplies by 100 after, shows 14. *)
Lemma progress_summary_counterexample :
  Double.SiteEditor.daysRemaining 400 100 0 = 0%float /\
  Spec.estimatedDaysRemaining 400 100 0 = None /\
  Double.SiteEditor.progressPercentage 200 29 = 14%float /\
  Double.Spec.completionPercentage 200 29 = 15%float /\
  Spec.is_round (100 * 29 / 200) 15 /\
  ~ Spec.is_round (100 * 29 / 200) 14.
Proof.
  repeat split; try (vm_compute; reflexivity); try (vm_compute; discriminate).
  intros [_ H]. vm_compute in H. discriminate.
Qed.

(** C4 (amended).  On doubles, as the program has them.  The completed
    total is the sum, from 0 and in ledger order, of [metersCompleted]
    over the approved entries only.  For a perimeter above 0 the
    percentage is [min (100, round ((total / perimeter) * 100))], the
    quotient and the product each rounded to a double and [round] the
    nearest integer, halves up, of that double; it is 0 for any other
    perimeter, 0 included.  For a rate above 0 the days remaining are
    [ceil (max (0, perimeter - total) / rate)], each operation rounded
    to a double and [ceil] exact on the result; they are 0 (not
    undefined, not infinite) for any other rate.  A rate of 50, a
    perimeter of 400 and one approved entry of 100 m give 25 percent
    and 6 days; 29 m of 200 m give 14 percent. *)
Theorem progress_summary
        (ledger : list Double.DailyProgress.t) (perimeter rate : float) :
  let total := Double.SiteEditor.totalCompleted ledger in
  let percent := Double.SiteEditor.progressPercentage perimeter total in
  let days := Double.SiteEditor.daysRemaining perimeter total rate in
  Double.same_number total (Double.Spec.totalCompletedMeters ledger) /\
  (Double.gt perimeter 0 = true ->
   let x := (total / perimeter * 100)%float in
   percent = Double.Math_min 100 (Double.Math_round x) /\
   forall q, Double.value x = Some q ->
     exists n, Spec.is_round q n /\
               Double.Math_round x
               = Double.of_rounded (Double.signbit x) n) /\
  (Double.gt perimeter 0 = false -> percent = 0%float) /\
  Double.SiteEditor.progressPercentage 0 total = 0%float /\
  (Double.gt rate 0 = true ->
   let y := (Double.Math_max 0 (perimeter - total) / rate)%float in
   days = Double.Math_ceil y /\
   forall q, Double.value y = Some q ->
     exists n, Spec.is_ceil q n /\
               Double.Math_ceil y
               = Double.of_rounded (Double.signbit y) n) /\
  (Double.gt rate 0 = false -> days = 0%float) /\
  Double.SiteEditor.daysRemaining perimeter total 0 = 0%float /\
  (let one := [Double.Sample.entry "e1" 100 approved] in
   Double.SiteEditor.progressPercentage
     400 (Double.SiteEditor.totalCompleted one) = 25%float /\
   Double.SiteEditor.daysRemaining
     400 (Double.SiteEditor.totalCompleted one) 50 = 6%float) /\
  Double.SiteEditor.progressPercentage 200 29 = 14%float.
Proof.
  intros total percent days.
  split.
  { subst total.
    unfold Double.SiteEditor.totalCompleted, Double.Spec.totalCompletedMeters,
      Double.Spec.sum.
    apply double_fold_total. now left. }
  split.
  { intros G x. subst percent.
    unfold Double.SiteEditor.progressPercentage. rewrite G.
    split; [reflexivity|]. intros q V.
    now apply double_Math_round_is_round. }
  split.
  { intros G. subst percent.
    unfold Double.SiteEditor.progressPercentage. now rewrite G. }
  split; [reflexivity|].
  split.
  { intros G y. subst days.
    unfold Double.SiteEditor.daysRemaining. rewrite G.
    split; [reflexivity|]. intros q V.
    now apply double_Math_ceil_is_ceil. }
  split.
  { intros G. subst days.
    unfold Double.SiteEditor.daysRemaining. now rewrite G. }
  split; [reflexivity|].
  split; [split; vm_compute; reflexivity|].
  vm_compute. reflexivity.
Qed.

Lemma progress_summary_witness :
  let ledger :=
    [Double.Sample.entry "e1" 0.1 approved;
     Double.Sample.entry "e2" 70 pending;
     Double.Sample.entry "e3" 0.2 approved] in
  let total := Double.SiteEditor.totalCompleted ledger in
  total = 0.30000000000000004%float /\
  Double.SiteEditor.progressPercentage 300.3 total
  = Double.Math_min 100 (Double.Math_round (total / 300.3 * 100)) /\
  Double.SiteEditor.progressPercentage 300.3 total = 0%float /\
  Double.SiteEditor.daysRemaining 300.3 total 50
  = Double.Math_ceil (Double.Math_max 0 (300.3 - total) / 50) /\
  Double.SiteEditor.daysRemaining 300.3 total 50 = 6%float /\
  Double.SiteEditor.daysRemaining 300.3 total (-2) = 0%float.
Proof.
  intros ledger total.
  destruct (progress_summary ledger 300.3 50)
    as [_ [Hpct [_ [_ [Hdays _]]]]].
  destruct (progress_summary ledger 300.3 (-2))
    as [_ [_ [_ [_ [_ [Hnone _]]]]]].
  split; [vm_compute; reflexivity|].
  split; [apply Hpct; vm_compute; reflexivity|].
  split; [vm_compute; reflexivity|].
  split; [apply Hdays; vm_compute; reflexivity|].
  split; [vm_compute; reflexivity|].
  apply Hnone. vm_compute. reflexivity.
Defined.

(** ** Review of ledger entries *)

Lemma handleUpdateProgressStatus_nth
      (id : string) (status : Status) (st : SiteEditor.State)
      (i : nat) (p : DailyProgress.t) :
  nth_error (SiteEditor.dailyProgress st) i = Some p ->
  nth_error
    (SiteEditor.dailyProgress
       (SiteEditor.handleUpdateProgressStatus id status st)) i
  = Some (if String.eqb (DailyProgress.id p) id
          then DailyProgress.with_status p status else p).
Proof.
  intros H. unfold SiteEditor.handleUpdateProgressStatus. simpl.
  rewrite nth_error_map, H. reflexivity.
Qed.

Lemma map_unmatched (id : string) (status : Status)
      (l : list DailyProgress.t) :
  (forall p, In p l -> DailyProgress.id p <> id) ->
  map (fun p => if String.eqb (DailyProgress.id p) id
                then DailyProgress.with_status p status else p) l = l.
Proof.
  induction l as [|e l IH]; intros H; [reflexivity|].
  simpl. rewrite IH by (intros p Hp; apply H; now right).
  destruct (String.eqb_spec (DailyProgress.id e) id) as [E|E].
  - exfalso. apply (H e); [now left|exact E].
  - reflexivity.
Qed.

Lemma setDailyProgress_same (st : SiteEditor.State) :
  SiteEditor.setDailyProgress (SiteEditor.dailyProgress st) st = st.
Proof. now destruct st. Qed.

Lemma NoDup_ids_same_index (l : list DailyProgress.t) (i j : nat)
      (p e : DailyProgress.t) :
  NoDup (map DailyProgress.id l) ->
  nth_error l i = Some p -> nth_error l j = Some e ->
  DailyProgress.id e = DailyProgress.id p -> e = p.
Proof.
  intros ND Hi Hj E.
  assert (Hi' : nth_error (map DailyProgress.id l) i
                = Some (DailyProgress.id p))
    by (rewrite nth_error_map, Hi; reflexivity).
  assert (Hj' : nth_error (map DailyProgress.id l) j
                = Some (DailyProgress.id p))
    by (rewrite nth_error_map, Hj, <- E; reflexivity).
  assert (i = j).
  { rewrite NoDup_nth_error in ND. apply ND.
    - apply nth_error_Some. congruence.
    - congruence. }
  subst j. congruence.
Qed.

(** C1, as the specification words it, is false on an entry that is
    already approved: the specification refuses the second review, the
    handler rewrites the status to rejected. *)
Lemma handleUpdateProgressStatus_rereview_counterexample :
  let ledger := [Sample.entry "e1" 100 approved] in
  let st := Sample.state Sample.square false true ledger "" in
  Spec.setStatus ledger "e1" rejected = inl Spec.InvalidTransition /\
  ~ Spec.setStatus_agrees
      ledger "e1" rejected
      (SiteEditor.dailyProgress
         (SiteEditor.handleUpdateProgressStatus "e1" rejected st)).
Proof.
  split; [reflexivity|].
  unfold Spec.setStatus_agrees. vm_compute. discriminate.
Qed.

(** C1 (amended).  [handleUpdateProgressStatus (id, status)] never fails
    and checks no transition: every entry whose id is [id] gets [status]
    whatever its current status, every other entry and the length of the
    ledger are unchanged, and with no entry of that id the state is
    unchanged.  The single review is kept by the panel: a card offers
    its review buttons for a pending entry only, so with unique ids a
    click on them never changes an entry that is not pending. *)
Theorem handleUpdateProgressStatus_unguarded
        (id : string) (status : Status) (st : SiteEditor.State) :
  let before := SiteEditor.dailyProgress st in
  let after :=
    SiteEditor.dailyProgress
      (SiteEditor.handleUpdateProgressStatus id status st) in
  (forall i p, nth_error before i = Some p -> DailyProgress.id p = id ->
               nth_error after i = Some (DailyProgress.with_status p status))
  /\
  (forall i p, nth_error before i = Some p -> DailyProgress.id p <> id ->
               nth_error after i = Some p)
  /\ length after = length before
  /\ ((forall p, In p before -> DailyProgress.id p <> id) ->
      SiteEditor.handleUpdateProgressStatus id status st = st)
  /\ (NoDup (map DailyProgress.id before) ->
      forall i j e,
        nth_error before j = Some e ->
        DailyProgress.status e <> pending ->
        nth_error
          (SiteEditor.dailyProgress (SiteEditor.clickReview i status st)) j
        = Some e).
Proof.
  intros before after. split; [|split; [|split; [|split]]].
  - intros i p Hp E. subst after.
    rewrite (handleUpdateProgressStatus_nth id status st i p Hp).
    subst id. now rewrite String.eqb_refl.
  - intros i p Hp E. subst after.
    rewrite (handleUpdateProgressStatus_nth id status st i p Hp).
    apply String.eqb_neq in E. now rewrite E.
  - subst after before. unfold SiteEditor.handleUpdateProgressStatus.
    simpl. apply length_map.
  - intros H. unfold SiteEditor.handleUpdateProgressStatus.
    rewrite map_unmatched by exact H. apply setDailyProgress_same.
  - intros ND i j e Hj Hs. unfold SiteEditor.clickReview.
    destruct (nth_error (SiteEditor.dailyProgress st) i) as [p|] eqn:Hi;
      [|exact Hj].
    unfold SiteEditor.reviewButtonsShown.
    destruct (DailyProgress.status p) eqn:Sp; unfold Status_eqb;
      try exact Hj.
    rewrite (handleUpdateProgressStatus_nth _ status st j e Hj).
    destruct (String.eqb_spec (DailyProgress.id e) (DailyProgress.id p))
      as [E|E]; [|reflexivity].
    exfalso. apply Hs.
    rewrite (NoDup_ids_same_index _ i j p e ND Hi Hj E). exact Sp.
Qed.

Lemma handleUpdateProgressStatus_unguarded_witness :
  let e1 := Sample.entry "e1" 100 approved in
  let e2 := Sample.entry "e2" 40 pending in
  let st := Sample.state Sample.square false true [e1; e2] "" in
  nth_error
    (SiteEditor.dailyProgress
       (SiteEditor.handleUpdateProgressStatus "e1" rejected st)) 0
  = Some (DailyProgress.with_status e1 rejected)
  /\ nth_error
       (SiteEditor.dailyProgress
          (SiteEditor.handleUpdateProgressStatus "e1" rejected st)) 1
     = Some e2
  /\ SiteEditor.handleUpdateProgressStatus "e9" rejected st = st
  /\ nth_error
       (SiteEditor.dailyProgress (SiteEditor.clickReview 0 rejected st)) 0
     = Some e1.
Proof.
  intros e1 e2 st.
  pose proof (handleUpdateProgressStatus_unguarded "e1" rejected st) as H1.
  pose proof (handleUpdateProgressStatus_unguarded "e9" rejected st) as H9.
  cbv zeta in H1, H9.
  destruct H1 as [Hhit [Hmiss [_ [_ Hpanel]]]].
  destruct H9 as [_ [_ [_ [Habsent _]]]].
  split; [|split; [|split]].
  - apply Hhit; reflexivity.
  - apply Hmiss; [reflexivity|discriminate].
  - apply Habsent. intros p [<-|[<-|[]]]; discriminate.
  - apply Hpanel; [|reflexivity|discriminate].
    repeat constructor; simpl; intuition discriminate.
Defined.

(** ** Opening the editor on a stored site *)

(** C2, as the specification words it, is false on a site with exactly
    one vertex: the editor does not open it as finished. *)
Lemma init_one_vertex_counterexample :
  let s := Sample.site [Sample.a] (mkSiteMetrics 0 1 0) 50 [] in
  Site.points s <> [] /\ ~ Spec.Finished (SiteEditor.init s).
Proof.
  split; [discriminate|].
  unfold Spec.Finished. vm_compute. intros [_ H]. discriminate.
Qed.

(** With one vertex the editor opens with both flags off. *)
Lemma init_one_vertex_flags (site : Site.t) :
  length (Site.points site) = 1%nat ->
  SiteEditor.isDrawing (SiteEditor.init site) = false /\
  SiteEditor.isFinished (SiteEditor.init site) = false.
Proof.
  intros H. unfold SiteEditor.init. simpl. now rewrite H.
Qed.

(** C2 (amended).  The editor opens in [Empty] on a site with no vertex
    and in [Finished] (drawing off, finished on) on a site with two
    vertices or more; on a site with exactly one vertex the finished flag
    is off. *)
Theorem init_phase (site : Site.t) :
  (Site.points site = [] -> Spec.Empty (SiteEditor.init site)) /\
  ((2 <= length (Site.points site))%nat ->
   Spec.Finished (SiteEditor.init site)) /\
  (length (Site.points site) = 1%nat ->
   SiteEditor.isFinished (SiteEditor.init site) = false).
Proof.
  unfold Spec.Empty, Spec.Finished, SiteEditor.init. simpl.
  split; [|split].
  - intros ->. repeat split.
  - intros H. split.
    + apply Nat.eqb_neq. lia.
    + apply Nat.ltb_lt. lia.
  - intros ->. reflexivity.
Qed.

Lemma init_phase_witness :
  Spec.Empty (SiteEditor.init (Sample.site [] Sample.noMetrics 50 [])) /\
  Spec.Finished
    (SiteEditor.init
       (Sample.site Sample.square (mkSiteMetrics 400 4 (48 # 10)) 50 [])) /\
  SiteEditor.isFinished
    (SiteEditor.init (Sample.site [Sample.a] (mkSiteMetrics 0 1 0) 50 []))
  = false.
Proof.
  split; [|split].
  - apply (proj1 (init_phase (Sample.site [] Sample.noMetrics 50 []))).
    reflexivity.
  - apply (proj1 (proj2 (init_phase
             (Sample.site Sample.square (mkSiteMetrics 400 4 (48 # 10))
                          50 [])))).
    simpl. lia.
  - apply (proj2 (proj2 (init_phase
             (Sample.site [Sample.a] (mkSiteMetrics 0 1 0) 50 [])))).
    reflexivity.
Defined.

(** ** Save after load *)

Lemma or_undefined_or_string (u : option string) :
  u <> Some EmptyString ->
  JS.or_undefined (JS.or_string u EmptyString) = u.
Proof.
  intros H. destruct u as [s|]; [|reflexivity].
  unfold JS.or_string, JS.or_undefined.
  destruct (String.eqb_spec s EmptyString) as [E|E].
  - subst s. congruence.
  - apply String.eqb_neq in E. now rewrite E.
Qed.

Lemma or_number_nonzero (r d : Q) : ~ r == 0 -> JS.or_number (Some r) d = r.
Proof.
  intros H. unfold JS.or_number.
  destruct (Qeq_bool r 0) eqn:E; [|reflexivity].
  apply Qeq_bool_iff in E. contradiction.
Qed.

(** C3.  The round trip loses a commitment rate of 0.  The editor
    saves the 0 typed in the commitment field as it is (lines 184 and
    72): the saved site [s] has rate 0 and the metrics of its own
    vertices and closure flag.  Opened again, [s] gets the rate 100
    ([|| 100], line 33), and an immediate save hands back a site [s']
    of rate 100, which is not [s].  The closure flag, read with [??]
    (line 17), comes back as it was saved, [false] included. *)
Theorem handleSave_zero_rate_lost
        (distanceTo : Point -> Point -> Q) (site : Site.t)
        (st : SiteEditor.State) :
  exists s s',
    SiteEditor.handleSave distanceTo site
                          (SiteEditor.setContractorCommitment 0 st)
    = Some s /\
    Site.contractorCommitmentPerDay s = Some 0 /\
    MapCanvas.calculateMetrics distanceTo (Site.points s)
                               (SiteEditor.isClosed st)
    = Some (Site.metrics s) /\
    SiteEditor.contractorCommitment (SiteEditor.init s) == 100 /\
    SiteEditor.handleSave distanceTo s (SiteEditor.init s) = Some s' /\
    Site.contractorCommitmentPerDay s' = Some 100 /\
    Site.isClosed s = Some (SiteEditor.isClosed st) /\
    Site.isClosed s' = Site.isClosed s /\
    ~ Site.same s' s.
Proof.
  destruct (calculateMetrics_returns
              distanceTo (SiteEditor.points st) (SiteEditor.isClosed st))
    as [P [_ H]].
  unfold SiteEditor.handleSave, SiteEditor.metrics.
  cbn [SiteEditor.setContractorCommitment SiteEditor.points
       SiteEditor.isClosed SiteEditor.customTileUrl
       SiteEditor.contractorCommitment SiteEditor.dailyProgress].
  rewrite H.
  eexists. eexists. split; [reflexivity|].
  cbn [SiteEditor.init Site.points Site.isClosed Site.metrics
       Site.contractorCommitmentPerDay SiteEditor.points
       SiteEditor.isClosed SiteEditor.contractorCommitment JS.nullish].
  rewrite H.
  split; [reflexivity|]. split; [reflexivity|]. split; [reflexivity|].
  split; [reflexivity|].
  cbn [Site.contractorCommitmentPerDay Site.isClosed].
  split; [reflexivity|]. split; [reflexivity|]. split; [reflexivity|].
  intros S. destruct S as [_ [_ [_ [_ [_ [_ [_ [R _]]]]]]]].
  cbn in R. discriminate R.
Qed.

(** The site the editor saves after a 0 is typed on the sample square,
    and the site saved after opening it again. *)
Example handleSave_zero_rate_sample :
  let typed :=
    SiteEditor.setContractorCommitment
      0 (Sample.state Sample.square false true [] "") in
  let s := Sample.site Sample.square
                       (mkSiteMetrics (40000 # 100) 4 (48 # 10)) 0 [] in
  SiteEditor.handleSave Sample.taxicab s typed = Some s /\
  Spec.valid_site s /\
  option_map Site.contractorCommitmentPerDay
    (SiteEditor.handleSave Sample.taxicab s (SiteEditor.init s))
  = Some (Some 100).
Proof.
  cbv zeta. split; [vm_compute; reflexivity|].
  split; [|vm_compute; reflexivity].
  unfold Spec.valid_site. simpl. repeat split.
  - now exists true.
  - exists 0. split; [reflexivity|lra].
  - exists []. split; [reflexivity|constructor].
Qed.

(** ** Undo *)

(** C5, as the specification words it, is false for the handler: called
    on a finished drawing it removes the last vertex and reopens the
    drawing. *)
Lemma handleUndo_finished_counterexample :
  let st := Sample.state Sample.square false true [] "" in
  Spec.Finished st /\ SiteEditor.handleUndo st <> st.
Proof.
  split; [split; reflexivity|].
  vm_compute. discriminate.
Qed.

(** C5 (amended).  The Undo button is disabled on a finished drawing, so
    a click on it leaves the whole state (vertices, closure flag, phase)
    unchanged.  [handleUndo] itself does not look at the phase: with at
    least one vertex it removes exactly the last vertex, keeps the
    closure flag, turns drawing on and finished off (so the editor is in
    [Drawing] while a vertex remains and in [Empty] when none does);
    with no vertex it changes nothing. *)
Theorem undo_gated_by_button (st : SiteEditor.State) :
  (SiteEditor.isFinished st = true -> SiteEditor.clickUndo st = st) /\
  (SiteEditor.points st <> [] ->
   let st' := SiteEditor.handleUndo st in
   (exists p, SiteEditor.points st = SiteEditor.points st' ++ [p]) /\
   SiteEditor.isClosed st' = SiteEditor.isClosed st /\
   SiteEditor.isDrawing st' = true /\
   SiteEditor.isFinished st' = false /\
   (SiteEditor.points st' <> [] -> Spec.Drawing st') /\
   (SiteEditor.points st' = [] -> Spec.Empty st')) /\
  (SiteEditor.points st = [] -> SiteEditor.handleUndo st = st).
Proof.
  split; [|split].
  - intros F. unfold SiteEditor.clickUndo, SiteEditor.undoDisabled.
    rewrite F. now rewrite orb_true_r.
  - intros NE st'.
    assert (E : st' = SiteEditor.setIsDrawing true
                        (SiteEditor.setIsFinished false
                           (SiteEditor.setPoints
                              (removelast (SiteEditor.points st)) st))).
    { subst st'. unfold SiteEditor.handleUndo.
      destruct (SiteEditor.points st); [congruence|reflexivity]. }
    rewrite E. simpl. repeat split.
    + exists (last (SiteEditor.points st) Sample.a).
      now apply app_removelast_last.
    + assumption.
    + assumption.
  - intros E. unfold SiteEditor.handleUndo. now rewrite E.
Qed.

Lemma undo_gated_by_button_witness :
  let fin := Sample.state Sample.square false true [] "" in
  let drw := Sample.state Sample.square true false [] "" in
  let emp := Sample.state [] true false [] "" in
  SiteEditor.clickUndo fin = fin /\
  SiteEditor.points (SiteEditor.handleUndo drw)
  = [Sample.a; Sample.b; Sample.c] /\
  Spec.Drawing (SiteEditor.handleUndo drw) /\
  SiteEditor.handleUndo emp = emp.
Proof.
  intros fin drw emp. split; [|split; [|split]].
  - apply (proj1 (undo_gated_by_button fin)). reflexivity.
  - reflexivity.
  - apply (proj1 (proj2 (undo_gated_by_button drw))); discriminate.
  - apply (proj2 (proj2 (undo_gated_by_button emp))). reflexivity.
Defined.

(** ** Logging progress *)

(** C8, as the specification words it, is false: no call of
    [handleAddProgress] fails with [InvalidInput].  The specification
    answers the amount -5 with [InvalidInput] and the amount 120 with
    the created entry; the handler completes on -5 exactly as it does
    on 120, returning [undefined], so nothing it hands back tells a
    rejected amount from an accepted one. *)
Lemma handleAddProgress_no_error_counterexample :
  let ledger := [Sample.entry "e1" 100 approved] in
  let bad := Sample.state Sample.square false true ledger "-5" in
  let good := Sample.state Sample.square false true ledger "120" in
  let now := 1700000500000%Z in
  Spec.addEntry ledger (Sample.parseFloat "-5") "north side" "e2" now
  = inl Spec.InvalidInput /\
  (exists created,
     Spec.addEntry ledger (Sample.parseFloat "120") "north side" "e2" now
     = inr (created, ledger ++ [created])) /\
  SiteEditor.handleAddProgress_completion Sample.parseFloat bad
  = JS.Return None /\
  SiteEditor.handleAddProgress_completion Sample.parseFloat bad
  = SiteEditor.handleAddProgress_completion Sample.parseFloat good.
Proof.
  cbv zeta. split; [reflexivity|]. split; [|split; reflexivity].
  eexists. reflexivity.
Qed.

(** C8 (amended).  [handleAddProgress] signals no error: on every
    input the call returns [undefined] and throws nothing.  An amount
    that does not parse or that is 0 or less is dropped silently: the
    handler returns before any setter runs, so the ledger (and the rest
    of the state) is unchanged.  For an amount above 0 it appends
    exactly one entry at the end of the ledger, pending, dated now, and
    keeps every earlier entry as it was. *)
Theorem handleAddProgress_guard
        (parseFloat : string -> option Q) (uuid : string) (now : Z)
        (st : SiteEditor.State) :
  let st' := SiteEditor.handleAddProgress parseFloat uuid now st in
  SiteEditor.handleAddProgress_completion parseFloat st = JS.Return None /\
  match parseFloat (SiteEditor.newProgressMeters st) with
  | None => st' = st
  | Some meters =>
      (meters <= 0 -> st' = st) /\
      (0 < meters ->
       SiteEditor.dailyProgress st'
       = SiteEditor.dailyProgress st
         ++ [DailyProgress.mk uuid now meters pending
                              (Some (SiteEditor.newProgressNotes st)) None]
       /\ length (SiteEditor.dailyProgress st')
          = S (length (SiteEditor.dailyProgress st))
       /\ (forall i p, nth_error (SiteEditor.dailyProgress st) i = Some p ->
                       nth_error (SiteEditor.dailyProgress st') i = Some p)
       /\ SiteEditor.points st' = SiteEditor.points st)
  end.
Proof.
  intros st'. subst st'. split.
  { unfold SiteEditor.handleAddProgress_completion.
    destruct (parseFloat (SiteEditor.newProgressMeters st)) as [meters|];
      [|reflexivity].
    now destruct (JS.le meters 0). }
  unfold SiteEditor.handleAddProgress.
  destruct (parseFloat (SiteEditor.newProgressMeters st)) as [meters|];
    [|reflexivity].
  split.
  - intros L. apply JS_le_iff in L. now rewrite L.
  - intros L.
    assert (F : JS.le meters 0 = false).
    { destruct (JS.le meters 0) eqn:E; [|reflexivity].
      apply JS_le_iff in E. lra. }
    rewrite F. simpl. repeat split.
    + rewrite length_app. simpl. lia.
    + intros i p H. rewrite nth_error_app1; [exact H|].
      apply nth_error_Some. congruence.
Qed.

Lemma handleAddProgress_guard_witness :
  let ledger := [Sample.entry "e1" 100 approved] in
  let bad := Sample.state Sample.square false true ledger "-5" in
  let good := Sample.state Sample.square false true ledger "120" in
  SiteEditor.handleAddProgress_completion Sample.parseFloat bad
  = JS.Return None /\
  SiteEditor.handleAddProgress Sample.parseFloat "e2" 1700000500000%Z bad
  = bad /\
  SiteEditor.dailyProgress
    (SiteEditor.handleAddProgress Sample.parseFloat "e2" 1700000500000%Z good)
  = ledger ++ [DailyProgress.mk "e2" 1700000500000%Z 120 pending
                                (Some "north side"%string) None].
Proof.
  intros ledger bad good. split; [|split].
  - apply (handleAddProgress_guard
             Sample.parseFloat "e2" 1700000500000%Z bad).
  - apply (handleAddProgress_guard
             Sample.parseFloat "e2" 1700000500000%Z bad).
    discriminate.
  - apply (handleAddProgress_guard
             Sample.parseFloat "e2" 1700000500000%Z good).
    reflexivity.
Defined.

(** ** Snapping a click to an existing vertex *)

Section SnapFacts.

Variable ScreenPoint : Type.
Variable latLngToContainerPoint : Point -> ScreenPoint.
Variable screenDistanceTo : ScreenPoint -> ScreenPoint -> Q.
Variable clickPoint : ScreenPoint.

Let threshold := MapCanvas.SNAP_THRESHOLD_PIXELS.
Let sd (v : Point) : Q :=
  screenDistanceTo clickPoint (latLngToContainerPoint v).
Let snapLoop :=
  MapCanvas.snapLoop ScreenPoint latLngToContainerPoint screenDistanceTo
                     clickPoint.

Let first_nearest := Spec.first_nearest sd threshold.

Lemma snapStep_eq (acc : option Q * option Point) (p : Point) :
  MapCanvas.snapStep ScreenPoint latLngToContainerPoint screenDistanceTo
                     clickPoint acc p
  = if MapCanvas.below (sd p) (fst acc) && JS.le (sd p) threshold
    then (Some (sd p), Some p)
    else acc.
Proof. reflexivity. Qed.

Lemma snapLoop_snoc (points : list Point) (p : Point) :
  snapLoop (points ++ [p])
  = if MapCanvas.below (sd p) (fst (snapLoop points))
       && JS.le (sd p) threshold
    then (Some (sd p), Some p)
    else snapLoop points.
Proof.
  unfold snapLoop, MapCanvas.snapLoop.
  rewrite fold_left_app. simpl fold_left at 1. apply snapStep_eq.
Qed.

Lemma nth_error_snoc (points : list Point) (p w : Point) (j : nat) :
  nth_error (points ++ [p]) j = Some w ->
  ((j < length points)%nat /\ nth_error points j = Some w) \/
  (j = length points /\ w = p).
Proof.
  intros H. destruct (Nat.lt_ge_cases j (length points)) as [L|L].
  - left. split; [exact L|]. now rewrite nth_error_app1 in H.
  - right. rewrite nth_error_app2 in H by exact L.
    destruct (j - length points)%nat as [|k] eqn:E.
    + simpl in H. split; [lia|congruence].
    + simpl in H. destruct k; discriminate.
Qed.

(** What the loop leaves in [(closestDist, snapTarget)]. *)
Lemma snapLoop_result (points : list Point) :
  (snapLoop points = (None, None) /\
   forall v, In v points -> threshold < sd v)
  \/
  (exists i v, snapLoop points = (Some (sd v), Some v) /\
               first_nearest points i v).
Proof.
  induction points as [|p points IH] using rev_ind.
  - left. split; [reflexivity|]. intros v [].
  - rewrite snapLoop_snoc.
    destruct IH as [[E Far]|[i [v [E [Hi [Hthr [Hmin Hfirst]]]]]]];
      rewrite E; cbn [fst MapCanvas.below].
    + destruct (JS.le (sd p) threshold) eqn:Le; simpl.
      * apply JS_le_iff in Le. right. exists (length points), p.
        split; [reflexivity|]. unfold first_nearest, Spec.first_nearest.
        split; [|split; [exact Le|split]].
        -- rewrite nth_error_app2 by lia. now rewrite Nat.sub_diag.
        -- intros j w Hw.
           destruct (nth_error_snoc _ _ _ _ Hw) as [[_ Hw']|[_ ->]];
             [|lra].
           apply nth_error_In in Hw'. specialize (Far w Hw'). lra.
        -- intros j w Lj Hw.
           rewrite nth_error_app1 in Hw by exact Lj.
           apply nth_error_In in Hw. specialize (Far w Hw). lra.
      * left. split; [reflexivity|]. intros w Hw.
        apply in_app_or in Hw. destruct Hw as [Hw|[<-|[]]].
        -- now apply Far.
        -- destruct (Qlt_le_dec threshold (sd p)) as [L|L]; [exact L|].
           apply JS_le_iff in L. congruence.
    + assert (Li : (i < length points)%nat)
        by (apply nth_error_Some; congruence).
      destruct (JS.lt (sd p) (sd v)) eqn:Lt;
        [destruct (JS.le (sd p) threshold) eqn:Le|]; simpl.
      * apply JS_lt_iff in Lt. apply JS_le_iff in Le.
        right. exists (length points), p.
        split; [reflexivity|]. unfold first_nearest, Spec.first_nearest.
        split; [|split; [exact Le|split]].
        -- rewrite nth_error_app2 by lia. now rewrite Nat.sub_diag.
        -- intros j w Hw.
           destruct (nth_error_snoc _ _ _ _ Hw) as [[_ Hw']|[_ ->]];
             [|lra].
           specialize (Hmin j w Hw'). lra.
        -- intros j w Lj Hw.
           rewrite nth_error_app1 in Hw by exact Lj.
           specialize (Hmin j w Hw). lra.
      * apply JS_lt_iff in Lt.
        assert (threshold < sd p).
        { destruct (Qlt_le_dec threshold (sd p)) as [L|L]; [exact L|].
          apply JS_le_iff in L. congruence. }
        lra.
      * apply JS_lt_false_iff in Lt.
        right. exists i, v. split; [reflexivity|]. unfold first_nearest, Spec.first_nearest.
        split; [|split; [exact Hthr|split]].
        -- now rewrite nth_error_app1.
        -- intros j w Hw.
           destruct (nth_error_snoc _ _ _ _ Hw) as [[_ Hw']|[_ ->]].
           ++ now apply (Hmin j).
           ++ exact Lt.
        -- intros j w Lj Hw.
           rewrite nth_error_app1 in Hw by lia.
           now apply (Hfirst j).
Qed.

End SnapFacts.

(** C7.  With snapping on and some vertex within the threshold (15
    pixels) of the click on screen, the click resolves to the
    coordinates of the nearest vertex, the first one in the order of the
    list among equally near ones; with snapping off, with no vertex, or
    with every vertex beyond the threshold, it resolves to the clicked
    coordinates unchanged. *)
Theorem resolveClick_snaps
        (ScreenPoint : Type)
        (latLngToContainerPoint : Point -> ScreenPoint)
        (screenDistanceTo : ScreenPoint -> ScreenPoint -> Q)
        (snapToPoints : bool) (points : list Point) (latlng : Point) :
  let clickPoint := latLngToContainerPoint latlng in
  let sd := fun v => screenDistanceTo clickPoint (latLngToContainerPoint v) in
  let resolved :=
    MapCanvas.resolveClick ScreenPoint latLngToContainerPoint
                           screenDistanceTo snapToPoints points latlng in
  (snapToPoints = true ->
   (exists v, In v points /\ sd v <= MapCanvas.SNAP_THRESHOLD_PIXELS) ->
   exists i v,
     Spec.first_nearest sd MapCanvas.SNAP_THRESHOLD_PIXELS points i v
     /\ resolved = v)
  /\
  (snapToPoints = false \/ points = [] \/
   (forall v, In v points -> MapCanvas.SNAP_THRESHOLD_PIXELS < sd v) ->
   resolved = latlng).
Proof.
  intros clickPoint sd resolved.
  pose proof (snapLoop_result ScreenPoint latLngToContainerPoint
                              screenDistanceTo clickPoint points) as R.
  assert (eta : forall q : Point, mkPoint (lat q) (lng q) = q)
    by (now intros []).
  split.
  - intros -> [v0 [In0 Near0]].
    destruct R as [[_ Far]|[i [v [E F]]]].
    + specialize (Far v0 In0). fold (sd v0) in Far. lra.
    + exists i, v. split; [exact F|].
      subst resolved. unfold MapCanvas.resolveClick.
      destruct points as [|p ps]; [destruct In0|].
      cbn [andb length Nat.ltb Nat.leb]. fold clickPoint.
      rewrite E. cbn [snd]. apply eta.
  - intros H. subst resolved. unfold MapCanvas.resolveClick.
    destruct snapToPoints; [|apply eta].
    destruct points as [|p ps]; [apply eta|].
    destruct H as [H|[H|Far]]; try discriminate.
    destruct R as [[E _]|[i [v [_ [Hi [Hthr _]]]]]].
    + cbn [andb length Nat.ltb Nat.leb]. fold clickPoint.
      rewrite E. apply eta.
    + apply nth_error_In in Hi. specialize (Far v Hi).
      unfold sd in Far. lra.
Qed.

Lemma resolveClick_snaps_witness :
  let points := [Sample.c; Sample.a; Sample.b; Sample.a] in
  let click := mkPoint 3 4 in
  (exists i v,
     Spec.first_nearest
       (fun v => Sample.taxicab (Sample.project click) (Sample.project v))
       MapCanvas.SNAP_THRESHOLD_PIXELS points i v
     /\ MapCanvas.resolveClick Point Sample.project Sample.taxicab true
                               points click = v) /\
  MapCanvas.resolveClick Point Sample.project Sample.taxicab true
                         Sample.square (mkPoint 50 50)
  = mkPoint 50 50.
Proof.
  intros points click. split.
  - apply (proj1 (resolveClick_snaps
                    Point Sample.project Sample.taxicab true points click)).
    + reflexivity.
    + exists Sample.a. split; [right; left; reflexivity|].
      vm_compute. discriminate.
  - apply (proj2 (resolveClick_snaps
                    Point Sample.project Sample.taxicab true
                    Sample.square (mkPoint 50 50))).
    right. right. intros v [<-|[<-|[<-|[<-|[]]]]]; vm_compute; reflexivity.
Defined.

(** The first of two equally near vertices wins: the click at (3, 4) is
    7 pixels from both copies of [Sample.a] and resolves to it. *)
Example resolveClick_sample :
  MapCanvas.resolveClick Point Sample.project Sample.taxicab true
                         [Sample.c; Sample.a; Sample.b; Sample.a]
                         (mkPoint 3 4)
  = Sample.a.
Proof. reflexivity. Qed.

(** ** Worked samples *)


(** The square of side 100, closed and open. *)
Example calculateMetrics_square_closed :
  MapCanvas.calculateMetrics Sample.taxicab Sample.square true
  = Some (mkSiteMetrics (40000 # 100) 4 (48 # 10)).
Proof. reflexivity. Qed.

Example calculateMetrics_square_open :
  MapCanvas.calculateMetrics Sample.taxicab Sample.square false
  = Some (mkSiteMetrics (30000 # 100) 4 (36 # 10)).
Proof. reflexivity. Qed.

(** A click while drawing appends the resolved point; a click on a
    finished drawing is ignored. *)
Example mapClick_sample :
  SiteEditor.points
    (SiteEditor.mapClick Point Sample.project Sample.taxicab (mkPoint 3 4)
       (Sample.state [Sample.a; Sample.b] true false [] ""))
  = [Sample.a; Sample.b; Sample.a]
  /\ SiteEditor.mapClick Point Sample.project Sample.taxicab (mkPoint 3 4)
       (Sample.state Sample.square false true [] "")
     = Sample.state Sample.square false true [] "".
Proof. split; reflexivity. Qed.

(** * Further properties of the editor, the ledger and the screens *)

(** ** An editing session *)

Section SessionFacts.

Variable parseFloat : string -> option Q.
Variable ScreenPoint : Type.
Variable latLngToContainerPoint : Point -> ScreenPoint.
Variable screenDistanceTo : ScreenPoint -> ScreenPoint -> Q.

Let step :=
  SiteEditor.step parseFloat ScreenPoint latLngToContainerPoint
                  screenDistanceTo.
Let run :=
  SiteEditor.run parseFloat ScreenPoint latLngToContainerPoint
                 screenDistanceTo.
Let mapClick :=
  SiteEditor.mapClick ScreenPoint latLngToContainerPoint screenDistanceTo.
Let resolveClick :=
  MapCanvas.resolveClick ScreenPoint latLngToContainerPoint screenDistanceTo.

Lemma Point_eta (q : Point) : mkPoint (lat q) (lng q) = q.
Proof. now destruct q. Qed.

Lemma mapClick_cases (latlng : Point) (st : SiteEditor.State) :
  mapClick latlng st
  = if SiteEditor.isDrawing st && negb (SiteEditor.isFinished st)
    then SiteEditor.setPoints
           (SiteEditor.points st
            ++ [resolveClick (SiteEditor.snapToPoints st)
                             (SiteEditor.points st) latlng]) st
    else st.
Proof.
  unfold mapClick, SiteEditor.mapClick, MapCanvas.click.
  now destruct (SiteEditor.isDrawing st && negb (SiteEditor.isFinished st)).
Qed.

(** The point a click resolves to is the click or a vertex that is
    already there. *)
Lemma resolveClick_origin (snap : bool) (points : list Point)
      (latlng : Point) :
  resolveClick snap points latlng = latlng
  \/ In (resolveClick snap points latlng) points.
Proof.
  unfold resolveClick, MapCanvas.resolveClick.
  destruct (snap && (0 <? length points)%nat); [|left; apply Point_eta].
  destruct (snapLoop_result ScreenPoint latLngToContainerPoint
                            screenDistanceTo
                            (latLngToContainerPoint latlng) points)
    as [[E _]|[i [v [E [Hi _]]]]]; rewrite E; cbn [snd].
  - left. apply Point_eta.
  - right. rewrite Point_eta. now apply nth_error_In in Hi.
Qed.

Lemma init_flags_ok (site : Site.t) : SiteEditor.flags_ok (SiteEditor.init site).
Proof.
  unfold SiteEditor.flags_ok, SiteEditor.init. simpl. split.
  - intros H. apply Nat.ltb_lt in H. lia.
  - intros [D F]. apply Nat.eqb_eq in D. apply Nat.ltb_lt in F. lia.
Qed.

Lemma step_flags_ok (e : SiteEditor.Event) (st : SiteEditor.State) :
  SiteEditor.flags_ok st -> SiteEditor.flags_ok (step e st).
Proof.
  unfold SiteEditor.flags_ok. intros [Hfin Hex].
  destruct e; unfold step, SiteEditor.step; fold mapClick;
    try (split; [exact Hfin|exact Hex]).
  - rewrite mapClick_cases.
    destruct (SiteEditor.isDrawing st) eqn:D;
      destruct (SiteEditor.isFinished st) eqn:F; simpl;
      rewrite ?D, ?F; split; try congruence; try assumption;
      intros [? ?]; congruence.
  - unfold SiteEditor.handleUndo.
    destruct (0 <? length (SiteEditor.points st))%nat; simpl;
      [|split; assumption].
    split; [discriminate|]. intros [_ H]. discriminate.
  - unfold SiteEditor.handleClear. simpl.
    split; [discriminate|]. intros [_ H]. discriminate.
  - unfold SiteEditor.handleFinish.
    destruct (1 <? length (SiteEditor.points st))%nat eqn:L; simpl;
      [|split; assumption].
    apply Nat.ltb_lt in L. split; [intros _; lia|].
    intros [H _]. discriminate.
  - unfold SiteEditor.handleAddProgress.
    destruct (parseFloat (SiteEditor.newProgressMeters st)) as [m|];
      [|split; assumption].
    destruct (JS.le m 0); split; assumption.
Qed.

Lemma run_flags_ok (events : list SiteEditor.Event) (st : SiteEditor.State) :
  SiteEditor.flags_ok st -> SiteEditor.flags_ok (run events st).
Proof.
  revert st. induction events as [|e es IH]; intros st H; [exact H|].
  apply (IH (step e st)). now apply step_flags_ok.
Qed.

End SessionFacts.

(** X1.  Whatever the site the editor opens on and whatever the user
    then does, a drawing marked finished has at least two vertices, and
    the drawing and finished flags are never on together. *)
Theorem editor_flags_invariant
        (parseFloat : string -> option Q) (ScreenPoint : Type)
        (latLngToContainerPoint : Point -> ScreenPoint)
        (screenDistanceTo : ScreenPoint -> ScreenPoint -> Q)
        (site : Site.t) (events : list SiteEditor.Event) :
  let st :=
    SiteEditor.run parseFloat ScreenPoint latLngToContainerPoint
                   screenDistanceTo events (SiteEditor.init site) in
  (SiteEditor.isFinished st = true ->
   (2 <= length (SiteEditor.points st))%nat) /\
  ~ (SiteEditor.isDrawing st = true /\ SiteEditor.isFinished st = true).
Proof.
  intros st. subst st.
  apply (run_flags_ok parseFloat ScreenPoint latLngToContainerPoint
                      screenDistanceTo).
  apply init_flags_ok.
Qed.

(** X2.  On a site that already has a vertex the editor opens with
    drawing off: a click on the map right after opening adds nothing,
    until Undo or Clear turns drawing on again.  And in any state, a
    click on a finished drawing changes nothing. *)
Theorem mapClick_ignored
        (ScreenPoint : Type)
        (latLngToContainerPoint : Point -> ScreenPoint)
        (screenDistanceTo : ScreenPoint -> ScreenPoint -> Q)
        (site : Site.t) (latlng : Point) (st : SiteEditor.State) :
  (Site.points site <> [] ->
   SiteEditor.mapClick ScreenPoint latLngToContainerPoint screenDistanceTo
                       latlng (SiteEditor.init site)
   = SiteEditor.init site) /\
  (SiteEditor.isFinished st = true ->
   SiteEditor.mapClick ScreenPoint latLngToContainerPoint screenDistanceTo
                       latlng st
   = st).
Proof.
  split.
  - intros NE. rewrite mapClick_cases.
    destruct (Site.points site) as [|p ps] eqn:E; [congruence|].
    unfold SiteEditor.init at 1 2. rewrite E. reflexivity.
  - intros F. rewrite mapClick_cases, F. now rewrite andb_false_r.
Qed.

Lemma mapClick_ignored_witness :
  let one := Sample.site [Sample.a] (mkSiteMetrics 0 1 0) 50 [] in
  let fin := Sample.state Sample.square false true [] "" in
  SiteEditor.mapClick Point Sample.project Sample.taxicab (mkPoint 3 4)
                      (SiteEditor.init one)
  = SiteEditor.init one /\
  SiteEditor.mapClick Point Sample.project Sample.taxicab (mkPoint 3 4) fin
  = fin.
Proof.
  intros one fin.
  destruct (mapClick_ignored Point Sample.project Sample.taxicab one
                             (mkPoint 3 4) fin) as [H1 H2].
  split; [apply H1; discriminate|apply H2; reflexivity].
Defined.

(** X3.  While drawing, Undo right after a click on the map gives back
    the state before the click, whether the click snapped or not. *)
Theorem handleUndo_after_mapClick
        (ScreenPoint : Type)
        (latLngToContainerPoint : Point -> ScreenPoint)
        (screenDistanceTo : ScreenPoint -> ScreenPoint -> Q)
        (latlng : Point) (st : SiteEditor.State) :
  SiteEditor.isDrawing st = true ->
  SiteEditor.isFinished st = false ->
  SiteEditor.handleUndo
    (SiteEditor.mapClick ScreenPoint latLngToContainerPoint screenDistanceTo
                         latlng st)
  = st.
Proof.
  intros D F. rewrite mapClick_cases, D, F. cbn [andb negb].
  unfold SiteEditor.handleUndo. cbn [SiteEditor.points SiteEditor.setPoints].
  rewrite length_app, Nat.add_1_r. cbn [Nat.ltb Nat.leb].
  rewrite removelast_last.
  destruct st. simpl in *. now subst.
Qed.

Lemma handleUndo_after_mapClick_witness :
  SiteEditor.handleUndo
    (SiteEditor.mapClick Point Sample.project Sample.taxicab (mkPoint 3 4)
       (Sample.state [Sample.a; Sample.b] true false [] ""))
  = Sample.state [Sample.a; Sample.b] true false [] "".
Proof.
  apply handleUndo_after_mapClick; reflexivity.
Defined.

(** X4.  After Clear, from any state, the next click on the map starts
    a new drawing whose only vertex is the clicked point itself. *)
Theorem mapClick_after_handleClear
        (ScreenPoint : Type)
        (latLngToContainerPoint : Point -> ScreenPoint)
        (screenDistanceTo : ScreenPoint -> ScreenPoint -> Q)
        (latlng : Point) (st : SiteEditor.State) :
  let st' :=
    SiteEditor.mapClick ScreenPoint latLngToContainerPoint screenDistanceTo
                        latlng (SiteEditor.handleClear st) in
  SiteEditor.points st' = [latlng] /\ Spec.Drawing st' /\
  SiteEditor.isClosed st' = SiteEditor.isClosed st /\
  SiteEditor.dailyProgress st' = SiteEditor.dailyProgress st.
Proof.
  intros st'. subst st'. rewrite mapClick_cases.
  unfold SiteEditor.handleClear. simpl.
  unfold MapCanvas.resolveClick. simpl. rewrite andb_false_r.
  rewrite Point_eta. unfold Spec.Drawing. simpl.
  repeat split. discriminate.
Qed.

(** X5.  A click on the map changes nothing but the vertex list, and
    that only at its end: the state is unchanged, or exactly one vertex
    is appended, and that vertex is the clicked point or a copy of a
    vertex already in the list (the clicked point when snapping is
    off). *)
Theorem mapClick_appends_one
        (ScreenPoint : Type)
        (latLngToContainerPoint : Point -> ScreenPoint)
        (screenDistanceTo : ScreenPoint -> ScreenPoint -> Q)
        (latlng : Point) (st : SiteEditor.State) :
  let st' :=
    SiteEditor.mapClick ScreenPoint latLngToContainerPoint screenDistanceTo
                        latlng st in
  st' = st \/
  exists x,
    st' = SiteEditor.setPoints (SiteEditor.points st ++ [x]) st /\
    (x = latlng \/ In x (SiteEditor.points st)) /\
    (SiteEditor.snapToPoints st = false -> x = latlng).
Proof.
  intros st'. subst st'. rewrite mapClick_cases.
  destruct (SiteEditor.isDrawing st && negb (SiteEditor.isFinished st));
    [|now left].
  right. eexists. split; [reflexivity|]. split.
  - apply resolveClick_origin.
  - intros ->. unfold MapCanvas.resolveClick. simpl. apply Point_eta.
Qed.

(** ** More on [calculateMetrics] *)

Lemma walk_rounded_le (x y : Q) :
  x <= y ->
  inject_Z (JS.Math_round (x / MapCanvas.WALK_SPEED * 10)) / 10
  <= inject_Z (JS.Math_round (y / MapCanvas.WALK_SPEED * 10)) / 10.
Proof.
  intros L.
  assert (W : 0 < / MapCanvas.WALK_SPEED) by reflexivity.
  assert (H : x / MapCanvas.WALK_SPEED * 10 <= y / MapCanvas.WALK_SPEED * 10).
  { unfold Qdiv. apply Qmult_le_compat_r; [|discriminate].
    apply Qmult_le_compat_r; [exact L|]. now apply Qlt_le_weak. }
  apply Math_round_le in H. rewrite Zle_Qle in H.
  unfold Qdiv at 1 3. apply Qmult_le_compat_r; [exact H|]. discriminate.
Qed.

(** X6.  With a distance that is never negative, closing a path never
    shortens it: for the same vertices the closed perimeter and walk
    time are at least the open ones, and the vertex count is the
    same. *)
Theorem calculateMetrics_closed_ge_open
        (distanceTo : Point -> Point -> Q)
        (nonneg : forall a b, 0 <= distanceTo a b) (vs : list Point) :
  exists mo mc,
    MapCanvas.calculateMetrics distanceTo vs false = Some mo /\
    MapCanvas.calculateMetrics distanceTo vs true = Some mc /\
    perimeterMeters mo <= perimeterMeters mc /\
    estimatedWalkTimeMinutes mo <= estimatedWalkTimeMinutes mc /\
    vertexCount mo = vertexCount mc.
Proof.
  destruct (calculateMetrics_returns distanceTo vs false) as [Po [Eo Ho]].
  destruct (calculateMetrics_returns distanceTo vs true) as [Pc [Ec Hc]].
  eexists. eexists. split; [exact Ho|]. split; [exact Hc|].
  assert (L : Po <= Pc).
  { rewrite Eo, Ec. unfold Spec.pathLength, Spec.wrapLength.
    destruct vs as [|f r]; [lra|].
    pose proof (nonneg (last (f :: r) f) f). lra. }
  destruct (length vs <? 2)%nat; simpl.
  - repeat split; lra.
  - split; [now apply rounded_le|]. split; [now apply walk_rounded_le|].
    reflexivity.
Qed.

Lemma calculateMetrics_closed_ge_open_witness :
  exists mo mc,
    MapCanvas.calculateMetrics Sample.taxicab Sample.square false = Some mo /\
    MapCanvas.calculateMetrics Sample.taxicab Sample.square true = Some mc /\
    perimeterMeters mo <= perimeterMeters mc /\
    estimatedWalkTimeMinutes mo <= estimatedWalkTimeMinutes mc /\
    vertexCount mo = vertexCount mc.
Proof.
  exact (calculateMetrics_closed_ge_open
           Sample.taxicab taxicab_nonneg Sample.square).
Defined.

(** X7.  With a distance that is never negative, the perimeter and the
    walk time that [calculateMetrics] returns are never negative. *)
Theorem calculateMetrics_nonneg
        (distanceTo : Point -> Point -> Q)
        (nonneg : forall a b, 0 <= distanceTo a b)
        (vs : list Point) (closed : bool) :
  exists m,
    MapCanvas.calculateMetrics distanceTo vs closed = Some m /\
    0 <= perimeterMeters m /\ 0 <= estimatedWalkTimeMinutes m.
Proof.
  destruct (calculateMetrics_returns distanceTo vs closed) as [P [EP H]].
  eexists. split; [exact H|].
  assert (P0 : 0 <= P)
    by (rewrite EP; now apply pathLength_nonneg).
  destruct (length vs <? 2)%nat; simpl; [split; lra|]. split.
  - assert (E0 : 0 == inject_Z (JS.Math_round (0 * 100)) / 100)
      by reflexivity.
    rewrite E0 at 1. now apply rounded_le.
  - assert (E0 : 0 == inject_Z
                        (JS.Math_round (0 / MapCanvas.WALK_SPEED * 10)) / 10)
      by reflexivity.
    rewrite E0 at 1. now apply walk_rounded_le.
Qed.

Lemma calculateMetrics_nonneg_witness :
  exists m,
    MapCanvas.calculateMetrics Sample.taxicab Sample.square true = Some m /\
    0 <= perimeterMeters m /\ 0 <= estimatedWalkTimeMinutes m.
Proof.
  exact (calculateMetrics_nonneg
           Sample.taxicab taxicab_nonneg Sample.square true).
Defined.

(** ** Saving *)

Lemma handleSave_inv
      (distanceTo : Point -> Point -> Q) (site s : Site.t)
      (st : SiteEditor.State) :
  SiteEditor.handleSave distanceTo site st = Some s ->
  Site.isClosed s = Some (SiteEditor.isClosed st) /\
  MapCanvas.calculateMetrics distanceTo (Site.points s)
                             (SiteEditor.isClosed st)
  = Some (Site.metrics s) /\
  Site.contractorCommitmentPerDay s
  = Some (SiteEditor.contractorCommitment st) /\
  Site.dailyProgress s = Some (SiteEditor.dailyProgress st) /\
  Site.customTileUrl s <> Some EmptyString.
Proof.
  unfold SiteEditor.handleSave, SiteEditor.metrics.
  destruct (MapCanvas.calculateMetrics distanceTo (SiteEditor.points st)
                                       (SiteEditor.isClosed st))
    as [m|] eqn:H; [|discriminate].
  intros E. injection E as <-. simpl.
  repeat split; try assumption.
  unfold JS.or_undefined.
  destruct (String.eqb_spec (SiteEditor.customTileUrl st) EmptyString)
    as [E|E]; congruence.
Qed.

(** X9.  [handleSave] always hands a site to [onSave], whatever the
    state of the editor.  That site keeps the id, name and creation date
    of the one the editor opened on; its metrics are those of its own
    points and closure flag, with a vertex count equal to the number of
    its points; its closure flag, rate and ledger are present and its
    tile URL is never the empty string. *)
Theorem handleSave_consistent
        (distanceTo : Point -> Point -> Q) (site : Site.t)
        (st : SiteEditor.State) :
  exists s,
    SiteEditor.handleSave distanceTo site st = Some s /\
    Site.id s = Site.id site /\ Site.name s = Site.name site /\
    Site.createdAt s = Site.createdAt site /\
    Site.points s = SiteEditor.points st /\
    Site.isClosed s = Some (SiteEditor.isClosed st) /\
    MapCanvas.calculateMetrics distanceTo (Site.points s)
                               (SiteEditor.isClosed st)
    = Some (Site.metrics s) /\
    vertexCount (Site.metrics s) = length (Site.points s) /\
    Site.contractorCommitmentPerDay s
    = Some (SiteEditor.contractorCommitment st) /\
    Site.dailyProgress s = Some (SiteEditor.dailyProgress st) /\
    Site.customTileUrl s <> Some EmptyString.
Proof.
  destruct (calculateMetrics_returns distanceTo (SiteEditor.points st)
                                     (SiteEditor.isClosed st))
    as [P [_ H]].
  unfold SiteEditor.handleSave, SiteEditor.metrics. rewrite H.
  eexists. split; [reflexivity|]. simpl.
  repeat split.
  - exact H.
  - now destruct (length (SiteEditor.points st) <? 2)%nat.
  - unfold JS.or_undefined.
    destruct (String.eqb_spec (SiteEditor.customTileUrl st) EmptyString)
      as [E|E]; congruence.
Qed.

(** X10.  What the editor saves, it reads back: when the commitment rate
    in the editor is not 0, opening the saved site and saving again
    without touching anything hands over the very same site. *)
Theorem handleSave_reopen
        (distanceTo : Point -> Point -> Q) (site s : Site.t)
        (st : SiteEditor.State) :
  ~ SiteEditor.contractorCommitment st == 0 ->
  SiteEditor.handleSave distanceTo site st = Some s ->
  SiteEditor.handleSave distanceTo s (SiteEditor.init s) = Some s.
Proof.
  intros R0 Hs.
  destruct (handleSave_inv distanceTo site s st Hs)
    as [Hc [Hm [Hr [Hl Hu]]]].
  unfold SiteEditor.handleSave, SiteEditor.metrics, SiteEditor.init.
  cbn [SiteEditor.points SiteEditor.isClosed SiteEditor.customTileUrl
       SiteEditor.contractorCommitment SiteEditor.dailyProgress].
  rewrite Hc, Hr, Hl. cbn [JS.nullish JS.or_array].
  rewrite Hm, or_undefined_or_string by exact Hu.
  rewrite or_number_nonzero by exact R0.
  destruct s. simpl in *. congruence.
Qed.

Lemma handleSave_reopen_witness :
  let st := Sample.state Sample.square false true
                         [Sample.entry "e1" 100 approved] "" in
  let site := Sample.site [] Sample.noMetrics 50 [] in
  exists s,
    SiteEditor.handleSave Sample.taxicab site st = Some s /\
    SiteEditor.handleSave Sample.taxicab s (SiteEditor.init s) = Some s.
Proof.
  intros st site.
  destruct (SiteEditor.handleSave Sample.taxicab site st) as [s|] eqn:E;
    [|discriminate E].
  exists s. split; [reflexivity|].
  apply (handleSave_reopen Sample.taxicab site s st); [|exact E].
  discriminate.
Defined.

(** ** The ledger *)

Lemma sum_app (l r : list Q) : Spec.sum (l ++ r) == Spec.sum l + Spec.sum r.
Proof.
  induction l as [|x l IH]; simpl; [lra|]. rewrite IH. lra.
Qed.

Lemma totalCompletedMeters_app (l r : list DailyProgress.t) :
  Spec.totalCompletedMeters (l ++ r)
  == Spec.totalCompletedMeters l + Spec.totalCompletedMeters r.
Proof.
  unfold Spec.totalCompletedMeters.
  now rewrite filter_app, map_app, sum_app.
Qed.

Lemma progressPercentage_comp (perimeter t t' : Q) :
  t == t' ->
  SiteEditor.progressPercentage perimeter t
  = SiteEditor.progressPercentage perimeter t'.
Proof.
  intros E. unfold SiteEditor.progressPercentage.
  destruct (JS.gt perimeter 0); [|reflexivity].
  f_equal. apply Math_round_comp. now rewrite E.
Qed.

Lemma Math_max_comp (a x y : Q) :
  x == y -> JS.Math_max a x == JS.Math_max a y.
Proof.
  intros E. now rewrite !Math_max_Qmax, E.
Qed.

Lemma daysRemaining_comp (perimeter rate t t' : Q) :
  t == t' ->
  SiteEditor.daysRemaining perimeter t rate
  = SiteEditor.daysRemaining perimeter t' rate.
Proof.
  intros E. unfold SiteEditor.daysRemaining.
  destruct (JS.gt rate 0); [|reflexivity].
  apply Qceiling_comp.
  assert (M : JS.Math_max 0 (perimeter - t) == JS.Math_max 0 (perimeter - t'))
    by (apply Math_max_comp; now rewrite E).
  now rewrite M.
Qed.

(** X11.  Logging progress changes no figure of the panel: after
    [handleAddProgress], accepted or not, the completed total, the
    percentage and the days remaining are what they were; a logged
    amount counts only once it is approved. *)
Theorem handleAddProgress_keeps_figures
        (parseFloat : string -> option Q) (uuid : string) (now : Z)
        (st : SiteEditor.State) (perimeter : Q) :
  let before := SiteEditor.totalCompleted (SiteEditor.dailyProgress st) in
  let after :=
    SiteEditor.totalCompleted
      (SiteEditor.dailyProgress
         (SiteEditor.handleAddProgress parseFloat uuid now st)) in
  after == before /\
  SiteEditor.progressPercentage perimeter after
  = SiteEditor.progressPercentage perimeter before /\
  SiteEditor.daysRemaining perimeter after (SiteEditor.contractorCommitment st)
  = SiteEditor.daysRemaining perimeter before
                             (SiteEditor.contractorCommitment st).
Proof.
  intros before after.
  assert (E : after == before).
  { subst before after. unfold SiteEditor.handleAddProgress.
    destruct (parseFloat (SiteEditor.newProgressMeters st)) as [m|];
      [|reflexivity].
    destruct (JS.le m 0); [reflexivity|]. simpl.
    rewrite !totalCompleted_sum, totalCompletedMeters_app.
    unfold Spec.totalCompletedMeters at 2. simpl. lra. }
  split; [exact E|]. split.
  - now apply progressPercentage_comp.
  - now apply daysRemaining_comp.
Qed.

Lemma totalCompletedMeters_cons (e : DailyProgress.t)
      (r : list DailyProgress.t) :
  Spec.totalCompletedMeters (e :: r)
  == (if Spec.is_approved e then DailyProgress.metersCompleted e else 0)
     + Spec.totalCompletedMeters r.
Proof.
  unfold Spec.totalCompletedMeters. simpl.
  destruct (Spec.is_approved e); simpl; lra.
Qed.

Lemma review_total (ledger : list DailyProgress.t) (i : nat)
      (p : DailyProgress.t) (status : Status) :
  NoDup (map DailyProgress.id ledger) ->
  nth_error ledger i = Some p ->
  DailyProgress.status p = pending ->
  Spec.totalCompletedMeters
    (map (fun q => if String.eqb (DailyProgress.id q) (DailyProgress.id p)
                   then DailyProgress.with_status q status else q) ledger)
  == Spec.totalCompletedMeters ledger
     + (if Status_eqb status approved
        then DailyProgress.metersCompleted p else 0).
Proof.
  revert i. induction ledger as [|e r IH]; intros i ND Hi Sp.
  - destruct i; discriminate.
  - simpl in ND. inversion ND as [|x l Hnot ND' E]; subst.
    cbn [map]. rewrite !totalCompletedMeters_cons.
    destruct i as [|i]; simpl in Hi.
    + injection Hi as ->.
      rewrite String.eqb_refl, map_unmatched.
      * unfold Spec.is_approved. cbn [DailyProgress.with_status
                                       DailyProgress.status
                                       DailyProgress.metersCompleted].
        rewrite Sp. destruct status; simpl; lra.
      * intros q Hq E. apply Hnot. rewrite <- E. now apply in_map.
    + rewrite (IH i ND' Hi Sp).
      destruct (String.eqb_spec (DailyProgress.id e) (DailyProgress.id p))
        as [E|E]; [|lra].
      exfalso. apply Hnot. rewrite E.
      apply in_map. now apply nth_error_In in Hi.
Qed.

(** X12.  With unique ids, rejecting a pending entry leaves the
    completed total as it was, and approving a pending entry whose
    amount is not negative never lowers the total. *)
Theorem review_changes_total
        (st : SiteEditor.State) (i : nat) (p : DailyProgress.t) :
  NoDup (map DailyProgress.id (SiteEditor.dailyProgress st)) ->
  nth_error (SiteEditor.dailyProgress st) i = Some p ->
  DailyProgress.status p = pending ->
  let total l := SiteEditor.totalCompleted (SiteEditor.dailyProgress l) in
  (0 <= DailyProgress.metersCompleted p ->
   total st
   <= total (SiteEditor.handleUpdateProgressStatus
               (DailyProgress.id p) approved st)) /\
  total (SiteEditor.handleUpdateProgressStatus
           (DailyProgress.id p) rejected st)
  == total st.
Proof.
  intros ND Hi Sp total. subst total. cbv beta.
  unfold SiteEditor.handleUpdateProgressStatus. simpl.
  rewrite !totalCompleted_sum.
  rewrite (review_total _ i p approved ND Hi Sp).
  rewrite (review_total _ i p rejected ND Hi Sp).
  simpl. split; [intros M|]; lra.
Qed.

Lemma review_changes_total_witness :
  let st :=
    Sample.state Sample.square false true
      [Sample.entry "e1" 100 approved; Sample.entry "e2" 40 pending] "" in
  SiteEditor.totalCompleted (SiteEditor.dailyProgress st)
  <= SiteEditor.totalCompleted
       (SiteEditor.dailyProgress
          (SiteEditor.handleUpdateProgressStatus "e2" approved st)) /\
  SiteEditor.totalCompleted
    (SiteEditor.dailyProgress
       (SiteEditor.handleUpdateProgressStatus "e2" rejected st))
  == SiteEditor.totalCompleted (SiteEditor.dailyProgress st).
Proof.
  intros st.
  destruct (review_changes_total st 1 (Sample.entry "e2" 40 pending))
    as [A R].
  - repeat constructor; simpl; intuition discriminate.
  - reflexivity.
  - reflexivity.
  - split; [apply A; discriminate|exact R].
Defined.

Section LedgerRun.

Variable parseFloat : string -> option Q.
Variable ScreenPoint : Type.
Variable latLngToContainerPoint : Point -> ScreenPoint.
Variable screenDistanceTo : ScreenPoint -> ScreenPoint -> Q.

Let step :=
  SiteEditor.step parseFloat ScreenPoint latLngToContainerPoint
                  screenDistanceTo.

Lemma map_content_review (id : string) (status : Status)
      (l : list DailyProgress.t) :
  map Ledger.content
      (map (fun p => if String.eqb (DailyProgress.id p) id
                     then DailyProgress.with_status p status else p) l)
  = map Ledger.content l.
Proof.
  rewrite map_map. apply map_ext. intros p.
  now destruct (String.eqb (DailyProgress.id p) id).
Qed.

Lemma step_ledger (e : SiteEditor.Event) (st : SiteEditor.State) :
  exists added,
    map Ledger.content (SiteEditor.dailyProgress (step e st))
    = map Ledger.content (SiteEditor.dailyProgress st)
      ++ map Ledger.content added
    /\ Ledger.positive added.
Proof.
  assert (same : forall st',
             SiteEditor.dailyProgress st' = SiteEditor.dailyProgress st ->
             exists added,
               map Ledger.content (SiteEditor.dailyProgress st')
               = map Ledger.content (SiteEditor.dailyProgress st)
                 ++ map Ledger.content added
               /\ Ledger.positive added).
  { intros st' E. exists []. rewrite E, app_nil_r.
    split; [reflexivity|constructor]. }
  destruct e; unfold step, SiteEditor.step; try (apply same; reflexivity).
  - apply same. rewrite mapClick_cases.
    now destruct (SiteEditor.isDrawing st && negb (SiteEditor.isFinished st)).
  - apply same. unfold SiteEditor.handleUndo.
    now destruct (0 <? length (SiteEditor.points st))%nat.
  - apply same. unfold SiteEditor.handleFinish.
    now destruct (1 <? length (SiteEditor.points st))%nat.
  - unfold SiteEditor.handleAddProgress.
    destruct (parseFloat (SiteEditor.newProgressMeters st)) as [m|];
      [|now apply same].
    destruct (JS.le m 0) eqn:L; [now apply same|].
    eexists [_]. simpl. rewrite map_app. split; [reflexivity|].
    constructor; [|constructor]. simpl.
    destruct (Qlt_le_dec 0 m) as [H|H]; [exact H|].
    apply JS_le_iff in H. congruence.
  - exists []. simpl. rewrite map_content_review, app_nil_r.
    split; [reflexivity|constructor].
Qed.

Lemma positive_content (l l' : list DailyProgress.t) :
  map Ledger.content l = map Ledger.content l' ->
  Ledger.positive l -> Ledger.positive l'.
Proof.
  revert l'. induction l as [|x l IH]; intros [|y l'] E H;
    try discriminate; [constructor|].
  simpl in E.
  assert (E1 : Ledger.content x = Ledger.content y) by congruence.
  assert (E2 : map Ledger.content l = map Ledger.content l') by congruence.
  inversion H as [|? ? Hx Hl]; subst.
  constructor; [|now apply IH].
  assert (Em := f_equal (fun c => snd (fst (fst c))) E1). simpl in Em.
  now rewrite <- Em.
Qed.

End LedgerRun.

(** X13.  The ledger is append-only.  Whatever the user does in the
    editor, every entry that was in the ledger is still there, in the
    same place, with its id, date, amount and notes unchanged (only its
    status may differ), and every entry added since claims a positive
    amount. *)
Theorem ledger_append_only
        (parseFloat : string -> option Q) (ScreenPoint : Type)
        (latLngToContainerPoint : Point -> ScreenPoint)
        (screenDistanceTo : ScreenPoint -> ScreenPoint -> Q)
        (events : list SiteEditor.Event) (st : SiteEditor.State) :
  exists added,
    map Ledger.content
        (SiteEditor.dailyProgress
           (SiteEditor.run parseFloat ScreenPoint latLngToContainerPoint
                           screenDistanceTo events st))
    = map Ledger.content (SiteEditor.dailyProgress st)
      ++ map Ledger.content added
    /\ Ledger.positive added.
Proof.
  revert st. induction events as [|e es IH]; intros st.
  - exists []. simpl. rewrite app_nil_r. split; [reflexivity|constructor].
  - change (SiteEditor.run parseFloat ScreenPoint latLngToContainerPoint
                           screenDistanceTo (e :: es) st)
      with (SiteEditor.run parseFloat ScreenPoint latLngToContainerPoint
                           screenDistanceTo es
                           (SiteEditor.step parseFloat ScreenPoint
                                            latLngToContainerPoint
                                            screenDistanceTo e st)).
    destruct (step_ledger parseFloat ScreenPoint latLngToContainerPoint
                          screenDistanceTo e st) as [a1 [E1 P1]].
    destruct (IH (SiteEditor.step parseFloat ScreenPoint
                                  latLngToContainerPoint screenDistanceTo
                                  e st)) as [a2 [E2 P2]].
    exists (a1 ++ a2). split.
    + rewrite E2, E1, map_app.
      now rewrite app_assoc.
    + now apply Forall_app.
Qed.

(** ** Bounds on the figures of the panel *)

Lemma positive_total_nonneg (l : list DailyProgress.t) :
  Ledger.positive l -> 0 <= Spec.totalCompletedMeters l.
Proof.
  induction 1 as [|e r He Hr IH].
  - unfold Spec.totalCompletedMeters. simpl. lra.
  - rewrite totalCompletedMeters_cons.
    destruct (Spec.is_approved e); lra.
Qed.

Lemma progressPercentage_le_100 (perimeter total : Q) :
  (SiteEditor.progressPercentage perimeter total <= 100)%Z.
Proof.
  unfold SiteEditor.progressPercentage.
  destruct (JS.gt perimeter 0); lia.
Qed.

Lemma progressPercentage_nonneg (perimeter total : Q) :
  0 <= total -> (0 <= SiteEditor.progressPercentage perimeter total)%Z.
Proof.
  intros T. unfold SiteEditor.progressPercentage.
  destruct (JS.gt perimeter 0) eqn:G; [|lia].
  apply JS_gt_zero_iff in G.
  apply Z.min_glb; [lia|].
  change 0%Z with (JS.Math_round 0).
  apply Math_round_le.
  assert (0 <= total / perimeter).
  { unfold Qdiv. apply Qmult_le_0_compat; [exact T|].
    apply Qlt_le_weak. now apply Qinv_lt_0_compat. }
  lra.
Qed.

Lemma Math_max_lower (x : Q) : 0 <= JS.Math_max 0 x.
Proof.
  rewrite Math_max_Qmax. apply Q.le_max_l.
Qed.

Lemma daysRemaining_nonneg (perimeter total rate : Q) :
  (0 <= SiteEditor.daysRemaining perimeter total rate)%Z.
Proof.
  unfold SiteEditor.daysRemaining.
  destruct (JS.gt rate 0) eqn:G; [|lia].
  apply JS_gt_zero_iff in G.
  change 0%Z with (JS.Math_ceil 0). unfold JS.Math_ceil.
  apply Qceiling_resp_le.
  unfold Qdiv. apply Qmult_le_0_compat; [apply Math_max_lower|].
  apply Qlt_le_weak. now apply Qinv_lt_0_compat.
Qed.

Lemma step_positive
      (parseFloat : string -> option Q) (ScreenPoint : Type)
      (latLngToContainerPoint : Point -> ScreenPoint)
      (screenDistanceTo : ScreenPoint -> ScreenPoint -> Q)
      (e : SiteEditor.Event) (st : SiteEditor.State) :
  Ledger.positive (SiteEditor.dailyProgress st) ->
  Ledger.positive
    (SiteEditor.dailyProgress
       (SiteEditor.step parseFloat ScreenPoint latLngToContainerPoint
                        screenDistanceTo e st)).
Proof.
  intros Pos.
  destruct (step_ledger parseFloat ScreenPoint latLngToContainerPoint
                        screenDistanceTo e st) as [added [E A]].
  rewrite <- map_app in E. symmetry in E.
  apply (positive_content _ _ E). now apply Forall_app.
Qed.

(** X14.  When the editor opens on a ledger whose entries all claim a
    positive amount, then whatever the user does every entry still
    claims a positive amount, the completed total is not negative, and
    for every perimeter and rate the percentage shown lies between 0 and
    100 and the days remaining are not negative. *)
Theorem figures_bounded
        (parseFloat : string -> option Q) (ScreenPoint : Type)
        (latLngToContainerPoint : Point -> ScreenPoint)
        (screenDistanceTo : ScreenPoint -> ScreenPoint -> Q)
        (events : list SiteEditor.Event) (st : SiteEditor.State) :
  Ledger.positive (SiteEditor.dailyProgress st) ->
  let ledger :=
    SiteEditor.dailyProgress
      (SiteEditor.run parseFloat ScreenPoint latLngToContainerPoint
                      screenDistanceTo events st) in
  Ledger.positive ledger /\
  0 <= SiteEditor.totalCompleted ledger /\
  forall perimeter rate,
    (0 <= SiteEditor.progressPercentage
            perimeter (SiteEditor.totalCompleted ledger) <= 100)%Z /\
    (0 <= SiteEditor.daysRemaining
            perimeter (SiteEditor.totalCompleted ledger) rate)%Z.
Proof.
  intros Pos ledger.
  assert (P : Ledger.positive ledger).
  { subst ledger. revert st Pos.
    induction events as [|e es IH]; intros st Pos; [exact Pos|].
    apply (IH (SiteEditor.step parseFloat ScreenPoint latLngToContainerPoint
                               screenDistanceTo e st)).
    now apply step_positive. }
  assert (T : 0 <= SiteEditor.totalCompleted ledger)
    by (rewrite totalCompleted_sum; now apply positive_total_nonneg).
  split; [exact P|]. split; [exact T|].
  intros perimeter rate. split; [split|].
  - now apply progressPercentage_nonneg.
  - apply progressPercentage_le_100.
  - apply daysRemaining_nonneg.
Qed.

Lemma figures_bounded_witness :
  let st :=
    Sample.state Sample.square false true
                 [Sample.entry "e1" 100 approved] "120" in
  let ledger :=
    SiteEditor.dailyProgress
      (SiteEditor.run Sample.parseFloat Point Sample.project Sample.taxicab
                      [SiteEditor.AddProgress "e2" 1700000500000%Z;
                       SiteEditor.UpdateStatus "e2" approved] st) in
  Ledger.positive ledger /\
  0 <= SiteEditor.totalCompleted ledger /\
  forall perimeter rate,
    (0 <= SiteEditor.progressPercentage
            perimeter (SiteEditor.totalCompleted ledger) <= 100)%Z /\
    (0 <= SiteEditor.daysRemaining
            perimeter (SiteEditor.totalCompleted ledger) rate)%Z.
Proof.
  intros st.
  apply (figures_bounded Sample.parseFloat Point Sample.project
                         Sample.taxicab).
  repeat constructor.
Defined.

(** X15.  Once the approved total reaches a positive perimeter the panel
    shows 100 percent, and once it reaches the perimeter (positive or
    not) it shows 0 days remaining, whatever the rate. *)
Theorem figures_when_complete (perimeter total rate : Q) :
  perimeter <= total ->
  SiteEditor.daysRemaining perimeter total rate = 0%Z /\
  (0 < perimeter -> SiteEditor.progressPercentage perimeter total = 100%Z).
Proof.
  intros L. split.
  - unfold SiteEditor.daysRemaining.
    destruct (JS.gt rate 0); [|reflexivity].
    change 0%Z with (JS.Math_ceil 0). unfold JS.Math_ceil.
    apply Qceiling_comp.
    assert (M : JS.Math_max 0 (perimeter - total) == 0).
    { rewrite Math_max_Qmax. apply Q.max_l. lra. }
    rewrite M. unfold Qdiv. ring.
  - intros P. unfold SiteEditor.progressPercentage.
    rewrite (proj2 (JS_gt_zero_iff perimeter) P).
    apply Z.min_l.
    assert (H1 : 1 <= total / perimeter).
    { apply Qle_shift_div_l; [exact P|]. lra. }
    assert (H : 100 <= total / perimeter * 100) by lra.
    apply Math_round_le in H. exact H.
Qed.

Lemma figures_when_complete_witness :
  SiteEditor.daysRemaining 400 450 50 = 0%Z /\
  SiteEditor.progressPercentage 400 450 = 100%Z.
Proof.
  destruct (figures_when_complete 400 450 50) as [D P]; [discriminate|].
  split; [exact D|]. apply P. reflexivity.
Defined.

(** X16.  More approved meters never lower the percentage and never
    raise the days remaining; a higher positive rate never raises the
    days remaining. *)
Theorem figures_monotone (perimeter total total' rate rate' : Q) :
  total <= total' ->
  0 < rate -> rate <= rate' ->
  (SiteEditor.progressPercentage perimeter total
   <= SiteEditor.progressPercentage perimeter total')%Z /\
  (SiteEditor.daysRemaining perimeter total' rate
   <= SiteEditor.daysRemaining perimeter total rate)%Z /\
  (SiteEditor.daysRemaining perimeter total rate'
   <= SiteEditor.daysRemaining perimeter total rate)%Z.
Proof.
  intros T R RR.
  assert (R' : 0 < rate') by lra.
  split; [|split].
  - unfold SiteEditor.progressPercentage.
    destruct (JS.gt perimeter 0) eqn:G; [|lia].
    apply JS_gt_zero_iff in G.
    apply Z.min_le_compat_l. apply Math_round_le.
    apply Qmult_le_compat_r; [|discriminate].
    unfold Qdiv. apply Qmult_le_compat_r; [exact T|].
    apply Qlt_le_weak. now apply Qinv_lt_0_compat.
  - unfold SiteEditor.daysRemaining.
    rewrite (proj2 (JS_gt_zero_iff rate) R).
    unfold JS.Math_ceil. apply Qceiling_resp_le.
    unfold Qdiv. apply Qmult_le_compat_r.
    + rewrite !Math_max_Qmax. apply Q.max_le_compat_l. lra.
    + apply Qlt_le_weak. now apply Qinv_lt_0_compat.
  - unfold SiteEditor.daysRemaining.
    rewrite (proj2 (JS_gt_zero_iff rate) R),
            (proj2 (JS_gt_zero_iff rate') R').
    unfold JS.Math_ceil. apply Qceiling_resp_le.
    pose proof (Math_max_lower (perimeter - total)) as M.
    apply Qle_shift_div_l; [exact R|].
    assert (E : JS.Math_max 0 (perimeter - total) / rate' * rate
                == (rate / rate') * JS.Math_max 0 (perimeter - total))
      by (field; lra).
    rewrite E.
    assert (X : rate / rate' <= 1)
      by (apply Qle_shift_div_r; [exact R'|lra]).
    rewrite <- (Qmult_1_l (JS.Math_max 0 (perimeter - total))) at 2.
    apply Qmult_le_compat_r; assumption.
Qed.

Lemma figures_monotone_witness :
  (SiteEditor.progressPercentage 400 100
   <= SiteEditor.progressPercentage 400 140)%Z /\
  (SiteEditor.daysRemaining 400 140 50
   <= SiteEditor.daysRemaining 400 100 50)%Z /\
  (SiteEditor.daysRemaining 400 100 80
   <= SiteEditor.daysRemaining 400 100 50)%Z.
Proof.
  apply (figures_monotone 400 100 140 50 80); [discriminate|reflexivity|].
  discriminate.
Defined.

(** ** From the recorder and the project view to the editor *)

Lemma track_points (fixes : list (Q * Q)) (st : SiteRecorder.State) :
  SiteRecorder.points (SiteRecorder.track fixes st)
  = SiteRecorder.points st
    ++ map (fun pos => mkPoint (fst pos) (snd pos)) fixes
  /\ SiteRecorder.siteName (SiteRecorder.track fixes st)
     = SiteRecorder.siteName st.
Proof.
  revert st. induction fixes as [|f fs IH]; intros st.
  - simpl. now rewrite app_nil_r.
  - unfold SiteRecorder.track in *. simpl fold_left.
    destruct (IH (SiteRecorder.onPosition (fst f) (snd f) st)) as [E N].
    rewrite E, N. simpl. now rewrite <- app_assoc.
Qed.

(** X17.  A recording keeps every fix, in the order of arrival, after
    the points it already had.  The site the recorder saves is an open
    path whose metrics are those of its points; opened in the editor it
    stays open (the default closed flag does not apply), gets the
    default rate 100 and an empty ledger, and saving it there untouched
    keeps its id, name, date, points, closure flag and metrics. *)
Theorem recorder_site_in_editor
        (distanceTo : Point -> Point -> Q) (uuid : string) (now : Z)
        (fixes : list (Q * Q)) (st : SiteRecorder.State) :
  exists s s',
    SiteRecorder.handleSave distanceTo uuid now (SiteRecorder.track fixes st)
    = Some s /\
    Site.points s
    = SiteRecorder.points st
      ++ map (fun pos => mkPoint (fst pos) (snd pos)) fixes /\
    Site.isClosed s = Some false /\
    MapCanvas.calculateMetrics distanceTo (Site.points s) false
    = Some (Site.metrics s) /\
    SiteEditor.isClosed (SiteEditor.init s) = false /\
    SiteEditor.contractorCommitment (SiteEditor.init s) = 100 /\
    SiteEditor.dailyProgress (SiteEditor.init s) = [] /\
    SiteEditor.handleSave distanceTo s (SiteEditor.init s) = Some s' /\
    s' = Site.mk (Site.id s) (Site.name s) (Site.createdAt s)
                 (Site.points s) (Site.metrics s) (Some false) None
                 (Some 100) (Some []).
Proof.
  destruct (track_points fixes st) as [Ep En].
  destruct (calculateMetrics_returns
              distanceTo (SiteRecorder.points (SiteRecorder.track fixes st))
              false) as [P [_ H]].
  unfold SiteRecorder.handleSave. rewrite H.
  eexists. eexists. split; [reflexivity|].
  cbn [Site.points Site.isClosed Site.metrics Site.id Site.name
       Site.createdAt].
  split; [exact Ep|]. split; [reflexivity|]. split; [exact H|].
  split; [reflexivity|]. split; [reflexivity|]. split; [reflexivity|].
  unfold SiteEditor.handleSave, SiteEditor.metrics, SiteEditor.init.
  cbn [SiteEditor.points SiteEditor.isClosed Site.points Site.isClosed
       JS.nullish].
  rewrite H. split; reflexivity.
Qed.

(** X18.  [handleCreate] of the project view creates nothing for a name
    that trims to the empty string.  Otherwise the new site carries the
    name as typed, has no points, stores exactly the metrics that
    [calculateMetrics] gives for no points, and opens in the editor in
    the [Empty] phase, closed, with rate 100 and an empty ledger. *)
Theorem handleCreate_site
        (trim : string -> string) (distanceTo : Point -> Point -> Q)
        (uuid : string) (now : Z) (newSiteName : string) :
  (trim newSiteName = EmptyString ->
   ProjectView.handleCreate trim uuid now newSiteName = None) /\
  (trim newSiteName <> EmptyString ->
   exists s,
     ProjectView.handleCreate trim uuid now newSiteName = Some s /\
     Site.id s = uuid /\ Site.name s = newSiteName /\
     Site.createdAt s = now /\ Site.points s = [] /\
     MapCanvas.calculateMetrics distanceTo (Site.points s) true
     = Some (Site.metrics s) /\
     Spec.Empty (SiteEditor.init s) /\
     SiteEditor.isClosed (SiteEditor.init s) = true /\
     SiteEditor.contractorCommitment (SiteEditor.init s) = 100 /\
     SiteEditor.dailyProgress (SiteEditor.init s) = []).
Proof.
  unfold ProjectView.handleCreate. split.
  - intros ->. reflexivity.
  - intros NE. apply String.eqb_neq in NE. rewrite NE.
    eexists. split; [reflexivity|]. unfold Spec.Empty. simpl.
    repeat split.
Qed.

Lemma handleCreate_site_witness :
  ProjectView.handleCreate Demo.trim "s9" 1700000000000%Z "" = None /\
  exists s,
    ProjectView.handleCreate Demo.trim "s9" 1700000000000%Z "Quay" = Some s
    /\ Site.name s = "Quay"%string /\ Spec.Empty (SiteEditor.init s).
Proof.
  destruct (handleCreate_site Demo.trim Sample.taxicab "s9" 1700000000000%Z
                              "") as [None_ _].
  destruct (handleCreate_site Demo.trim Sample.taxicab "s9" 1700000000000%Z
                              "Quay") as [_ Some_].
  split; [apply None_; reflexivity|].
  destruct Some_ as [s [E [_ [N [_ [_ [_ [Em _]]]]]]]]; [discriminate|].
  exists s. split; [exact E|]. split; [exact N|exact Em].
Defined.

(** ** The application shell *)

Lemma replaceProject_self (cp updated : Project.t) (ps : list Project.t) :
  In cp ps -> In updated (App.replaceProject cp updated ps).
Proof.
  intros H. unfold App.replaceProject.
  apply in_map_iff. exists cp. split; [|exact H].
  now rewrite String.eqb_refl.
Qed.

Lemma replaceProject_other (cp updated p : Project.t)
      (ps : list Project.t) :
  In p ps -> Project.id p <> Project.id cp ->
  In p (App.replaceProject cp updated ps).
Proof.
  intros H NE. unfold App.replaceProject.
  apply in_map_iff. exists p. split; [|exact H].
  apply String.eqb_neq in NE. now rewrite NE.
Qed.

Lemma map_site_unmatched (updated : Site.t) (l : list Site.t) :
  (forall s, In s l -> Site.id s <> Site.id updated) ->
  map (fun s => if String.eqb (Site.id s) (Site.id updated)
                then updated else s) l = l.
Proof.
  induction l as [|e l IH]; intros H; [reflexivity|].
  simpl. rewrite IH by (intros s Hs; apply H; now right).
  destruct (String.eqb_spec (Site.id e) (Site.id updated)) as [E|E].
  - exfalso. apply (H e); [now left|exact E].
  - reflexivity.
Qed.

(** X19.  [handleSaveSite] with no project open does nothing.  With a
    project open it closes the editor and swaps, in that project, every
    site that has the id of the saved one for the saved one, keeping
    the number and order of the sites; when no site of the project has
    that id the site list is left as it was, so the save is not kept.
    The project list follows, place by place: it keeps its length, the
    update stands at every place where a project with the id of the
    open one stood, and every other place keeps its project; so the
    open project, when it is in the list, is replaced by its update,
    and every project with another id stays. *)
Theorem handleSaveSite_replaces (updatedSite : Site.t) (st : App.State) :
  (App.currentProject st = None -> App.handleSaveSite updatedSite st = st)
  /\
  (forall cp,
     App.currentProject st = Some cp ->
     let st' := App.handleSaveSite updatedSite st in
     exists cp',
       App.currentProject st' = Some cp' /\
       App.currentSite st' = None /\
       Project.id cp' = Project.id cp /\
       length (Project.sites cp') = length (Project.sites cp) /\
       (forall i s,
          nth_error (Project.sites cp) i = Some s ->
          nth_error (Project.sites cp') i
          = Some (if String.eqb (Site.id s) (Site.id updatedSite)
                  then updatedSite else s)) /\
       ((forall s, In s (Project.sites cp) ->
                   Site.id s <> Site.id updatedSite) ->
        Project.sites cp' = Project.sites cp) /\
       length (App.projects st') = length (App.projects st) /\
       (forall i p,
          nth_error (App.projects st) i = Some p ->
          nth_error (App.projects st') i
          = Some (if String.eqb (Project.id p) (Project.id cp)
                  then cp' else p)) /\
       (In cp (App.projects st) -> In cp' (App.projects st')) /\
       (forall p, In p (App.projects st) ->
                  Project.id p <> Project.id cp ->
                  In p (App.projects st'))).
Proof.
  unfold App.handleSaveSite, App.saveSiteSettled. split.
  - intros ->. reflexivity.
  - intros cp ->. cbv zeta. eexists. split; [reflexivity|].
    cbn [App.currentSite App.setCurrentSite App.projects
         App.setCurrentProject App.setProjects Project.with_sites
         Project.id Project.sites].
    split; [reflexivity|]. split; [reflexivity|].
    split; [apply length_map|]. split; [|split; [|split; [|split; [|split]]]].
    + intros i s H. now rewrite nth_error_map, H.
    + intros H. now apply map_site_unmatched.
    + unfold App.replaceProject. apply length_map.
    + intros i p H. unfold App.replaceProject.
      now rewrite nth_error_map, H.
    + now apply replaceProject_self.
    + intros p H NE. now apply replaceProject_other.
Qed.

Lemma handleSaveSite_replaces_witness :
  let old := Demo.openSite [Sample.a] (Some false) in
  let new := Demo.openSite Sample.square (Some true) in
  let cp := Demo.project [old] in
  let st := App.mkState true [cp] (Some cp) (Some old) None false in
  exists cp',
    App.currentProject (App.handleSaveSite new st) = Some cp' /\
    App.currentSite (App.handleSaveSite new st) = None /\
    nth_error (Project.sites cp') 0 = Some new /\
    App.projects (App.handleSaveSite new st) = [cp'] /\
    In cp' (App.projects (App.handleSaveSite new st)).
Proof.
  intros old new cp st.
  destruct (proj2 (handleSaveSite_replaces new st) cp eq_refl)
    as [cp' [E [S [_ [_ [N [_ [L [P [I _]]]]]]]]]].
  exists cp'. split; [exact E|]. split; [exact S|]. split; [|split].
  - exact (N 0%nat old eq_refl).
  - specialize (P 0%nat cp eq_refl).
    rewrite String.eqb_refl in P.
    destruct (App.projects (App.handleSaveSite new st)) as [|x [|y r]];
      try discriminate.
    simpl in P. now injection P as ->.
  - apply I. now left.
Defined.

Lemma shape_ok_one_view (st : App.State) :
  App.shape_ok st -> exists v, App.rendered st = [v].
Proof.
  unfold App.shape_ok, App.shape, App.rendered. intros H.
  destruct (App.isAuthenticated st); [|now exists App.SignIn].
  destruct H as [H|[H|[H|[H|H]]]]; injection H as -> -> -> ->;
    simpl; eexists; reflexivity.
Qed.

Lemma dispatch_shape_ok (e : App.Event) (st : App.State) :
  App.shape_ok st -> App.shape_ok (App.dispatch e st).
Proof.
  intros H.
  destruct st as [auth ps cp cs sv rec].
  unfold App.shape_ok, App.shape in *. cbn [App.currentProject App.currentSite
    App.currentStreetViewSite App.isRecordingSite] in H.
  assert (cases :
    (cp = None /\ cs = None /\ sv = None /\ rec = false) \/
    ((exists p, cp = Some p) /\
     ((cs = None /\ sv = None /\ rec = false) \/
      ((exists s, cs = Some s) /\ sv = None /\ rec = false) \/
      (cs = None /\ (exists s, sv = Some s) /\ rec = false) \/
      (cs = None /\ sv = None /\ rec = true)))).
  { destruct cp, cs, sv, rec; simpl in H;
      destruct H as [H|[H|[H|[H|H]]]]; try discriminate H;
      try (left; repeat split; reflexivity);
      right; (split; [eexists; reflexivity|]); eauto 10. }
  clear H.
  destruct cases as [[-> [-> [-> ->]]]|[[p ->] inner]].
  - destruct e, auth; unfold App.dispatch; simpl; auto;
      try (destruct data; simpl; auto; fail).
    destruct (nth_error ps i); simpl; auto.
  - destruct inner as [[-> [-> ->]]|[[[s ->] [-> ->]]|[[-> [[s ->] ->]]
                      |[-> [-> ->]]]]];
      destruct e, auth; unfold App.dispatch; simpl; auto 6;
      try (destruct data; simpl; auto 6; fail);
      try (unfold App.siteOfCurrentProject; simpl;
           destruct (nth_error (Project.sites p) i); simpl; auto 6; fail).
Qed.

(** X20.  From the start of the application, whatever callbacks are
    called and whenever the project request settles, exactly one screen
    is on display: never two at once, never none. *)
Theorem app_shows_one_view (events : list App.Event) :
  exists v, App.rendered (App.run events App.initial) = [v].
Proof.
  apply shape_ok_one_view.
  assert (G : forall st, App.shape_ok st -> App.shape_ok (App.run events st)).
  { induction events as [|e es IH]; intros st H; [exact H|].
    apply (IH (App.dispatch e st)). now apply dispatch_shape_ok. }
  apply G. left. reflexivity.
Qed.

(** ** The tour of the street view *)

Lemma digits_inj (i j : nat) :
  StreetView.digits i = StreetView.digits j -> i = j.
Proof.
  unfold StreetView.digits. intros H.
  apply (f_equal NilEmpty.uint_of_string) in H.
  rewrite !NilEmpty.usu in H. injection H as H.
  apply (f_equal Nat.of_uint) in H.
  now rewrite !DecimalNat.Unsigned.of_to in H.
Qed.

Lemma nodeId_inj (i j : nat) :
  StreetView.nodeId i = StreetView.nodeId j -> i = j.
Proof.
  unfold StreetView.nodeId. simpl. intros H.
  injection H as H. now apply digits_inj.
Qed.

Lemma nth_error_mapi {A B : Type} (f : A -> nat -> B) (l : list A)
      (k i : nat) :
  nth_error (StreetView.mapi f k l) i
  = option_map (fun x => f x (k + i)%nat) (nth_error l i).
Proof.
  revert k i. induction l as [|x r IH]; intros k [|i]; simpl;
    try reflexivity.
  - now rewrite Nat.add_0_r.
  - rewrite IH. now rewrite Nat.add_succ_r.
Qed.

Lemma length_mapi {A B : Type} (f : A -> nat -> B) (l : list A) (k : nat) :
  length (StreetView.mapi f k l) = length l.
Proof.
  revert k. induction l as [|x r IH]; intros k; simpl; [reflexivity|].
  now rewrite IH.
Qed.

(** The node generated for the point of index [i]. *)
Lemma generatedNodes_nth (site : Site.t) (i : nat) (n : StreetView.TourNode) :
  nth_error (StreetView.generatedNodes site) i = Some n ->
  (i < length (Site.points site))%nat /\
  StreetView.id n = StreetView.nodeId i /\
  StreetView.links n = StreetView.linksOf site i /\
  exists p, nth_error (Site.points site) i = Some p /\
            StreetView.position n = Some p /\
            StreetView.gps n = (lng p, lat p).
Proof.
  unfold StreetView.generatedNodes. rewrite nth_error_mapi.
  destruct (nth_error (Site.points site) i) as [p|] eqn:E; [|discriminate].
  simpl. intros H. injection H as <-. simpl.
  split; [apply nth_error_Some; congruence|].
  repeat split. exists p. repeat split.
Qed.

Lemma generatedNodes_at (site : Site.t) (i : nat) :
  (i < length (Site.points site))%nat ->
  exists n, nth_error (StreetView.generatedNodes site) i = Some n /\
            StreetView.id n = StreetView.nodeId i.
Proof.
  intros L. unfold StreetView.generatedNodes. rewrite nth_error_mapi.
  destruct (nth_error (Site.points site) i) as [p|] eqn:E.
  - simpl. eexists. split; reflexivity.
  - apply nth_error_None in E. lia.
Qed.

Lemma In_linksOf (site : Site.t) (i j : nat) :
  In (StreetView.nodeId j) (StreetView.linksOf site i)
  <-> StreetView.adjacent (length (Site.points site)) (StreetView.closed site) i j.
Proof.
  unfold StreetView.linksOf, StreetView.adjacent.
  set (n := length (Site.points site)).
  set (c := StreetView.closed site).
  rewrite !in_app_iff.
  assert (one : forall (b : bool) (k : nat),
             In (StreetView.nodeId j) (if b then [StreetView.nodeId k] else [])
             <-> b = true /\ j = k).
  { intros b k. destruct b; simpl.
    - split.
      + intros [H|[]]. split; [reflexivity|]. symmetry. now apply nodeId_inj.
      + intros [_ ->]. now left.
    - split; [intros []|intros [H _]; discriminate]. }
  rewrite !one, !andb_true_iff, Nat.ltb_lt, Nat.ltb_lt, Nat.ltb_lt,
          !Nat.eqb_eq.
  tauto.
Qed.

(** X21.  The tour generated from a site is a proper graph on its
    points: a link always names a node of the tour, never the node it
    starts from, and whenever a node links to another, that one links
    back. *)
Theorem generatedNodes_links
        (site : Site.t) (i : nat) (ni : StreetView.TourNode) :
  nth_error (StreetView.generatedNodes site) i = Some ni ->
  (forall target,
     In target (StreetView.links ni) ->
     target <> StreetView.id ni /\
     exists j nj,
       nth_error (StreetView.generatedNodes site) j = Some nj /\
       StreetView.id nj = target /\
       In (StreetView.id ni) (StreetView.links nj)).
Proof.
  intros Hi target Ht.
  destruct (generatedNodes_nth site i ni Hi) as [Li [Ei [Ki _]]].
  rewrite Ki in Ht.
  assert (T : exists j, target = StreetView.nodeId j).
  { unfold StreetView.linksOf in Ht. rewrite !in_app_iff in Ht.
    destruct Ht as [H|[H|[H|H]]];
      match type of H with
      | In _ (if ?b then _ else _) => destruct b
      end; simpl in H; try contradiction;
      destruct H as [H|[]]; eexists; symmetry; exact H. }
  destruct T as [j ->].
  apply In_linksOf in Ht.
  assert (Lj : (j < length (Site.points site))%nat /\ j <> i /\
               StreetView.adjacent (length (Site.points site))
                        (StreetView.closed site) j i).
  { unfold StreetView.adjacent in *.
    destruct Ht as [[A B]|[[A B]|[[A [B [C D]]]|[A [B [C D]]]]]].
    - split; [lia|]. split; [lia|]. right. left. lia.
    - split; [lia|]. split; [lia|]. left. lia.
    - split; [lia|]. split; [lia|]. right. right. right.
      repeat split; try assumption; lia.
    - split; [lia|]. split; [lia|]. right. right. left.
      repeat split; try assumption; lia. }
  destruct Lj as [Lj [Nji Aji]].
  split.
  - rewrite Ei. intros E. apply nodeId_inj in E. contradiction.
  - destruct (generatedNodes_at site j Lj) as [nj [Hj Ej]].
    exists j, nj. split; [exact Hj|]. split; [exact Ej|].
    destruct (generatedNodes_nth site j nj Hj) as [_ [_ [Kj _]]].
    rewrite Kj, Ei. now apply In_linksOf.
Qed.

Lemma generatedNodes_links_witness :
  let site := Demo.openSite Sample.square (Some true) in
  "node-0"%string <> "node-3"%string /\
  exists j nj,
    nth_error (StreetView.generatedNodes site) j = Some nj /\
    StreetView.id nj = "node-0"%string /\
    In "node-3"%string (StreetView.links nj).
Proof.
  intros site.
  destruct (nth_error (StreetView.generatedNodes site) 3) as [n3|] eqn:E;
    [|discriminate E].
  pose proof (generatedNodes_links site 3 n3 E "node-0"%string) as H.
  vm_compute in E. injection E as <-.
  apply H. right. left. reflexivity.
Defined.

Lemma findIndex_missing (target : string) (l : list StreetView.TourNode)
      (acc : Z) :
  (forall n, In n l -> StreetView.id n <> target) ->
  StreetView.findIndex target l acc = (-1)%Z.
Proof.
  revert acc. induction l as [|x r IH]; intros acc H; [reflexivity|].
  simpl. destruct (String.eqb_spec (StreetView.id x) target) as [E|E].
  - exfalso. apply (H x); [now left|exact E].
  - apply IH. intros n Hn. apply H. now right.
Qed.

Lemma findIndex_numbered (l : list StreetView.TourNode) (k i : nat)
      (acc : Z) :
  (forall m nd, nth_error l m = Some nd ->
                StreetView.id nd = StreetView.nodeId (k + m)) ->
  (k <= i)%nat -> (i - k < length l)%nat ->
  StreetView.findIndex (StreetView.nodeId i) l acc
  = (acc + Z.of_nat (i - k))%Z.
Proof.
  revert k acc. induction l as [|x r IH]; intros k acc H Lk Ll.
  - simpl in Ll. lia.
  - simpl. pose proof (H 0%nat x eq_refl) as Hx. rewrite Nat.add_0_r in Hx.
    rewrite Hx.
    destruct (String.eqb_spec (StreetView.nodeId k) (StreetView.nodeId i))
      as [E|E].
    + apply nodeId_inj in E. subst. rewrite Nat.sub_diag. simpl. lia.
    + assert (k <> i) by (intros ->; now apply E).
      rewrite (IH (S k) (acc + 1)%Z).
      * lia.
      * intros m nd Hm. rewrite (H (S m) nd Hm). f_equal. lia.
      * lia.
      * simpl in Ll. lia.
Qed.

Lemma currentIndex_generated (site : Site.t) (i : nat) (u : bool) :
  (i < length (Site.points site))%nat ->
  StreetView.currentIndex
    (StreetView.mkState (StreetView.nodeId i)
                        (StreetView.generatedNodes site) u)
  = Z.of_nat i.
Proof.
  intros L. unfold StreetView.currentIndex. simpl.
  rewrite (findIndex_numbered _ 0 i 0).
  - rewrite Nat.sub_0_r. lia.
  - intros m nd Hm. now destruct (generatedNodes_nth site m nd Hm) as [_ [E _]].
  - lia.
  - unfold StreetView.generatedNodes. rewrite length_mapi. lia.
Qed.

Lemma nodeAt_generated (site : Site.t) (cur : string) (u : bool) (j : nat) :
  (j < length (Site.points site))%nat ->
  option_map StreetView.id
    (StreetView.nodeAt
       (StreetView.mkState cur (StreetView.generatedNodes site) u)
       (Z.of_nat j))
  = Some (StreetView.nodeId j).
Proof.
  intros L. unfold StreetView.nodeAt.
  destruct (Z.ltb_spec (Z.of_nat j) 0) as [H|H]; [lia|].
  rewrite Nat2Z.id. simpl.
  destruct (generatedNodes_at site j L) as [n [Hn En]].
  rewrite Hn. simpl. now rewrite En.
Qed.

(** X22.  On the generated tour, with the node of index [i] current,
    Next goes to the node of index [i + 1] and does nothing on the last
    node, even in a closed tour whose last node links back to the
    first; Previous goes to the node of index [i - 1] and does nothing
    on the first node.  Wherever they go is a link of the current
    node. *)
Theorem tour_prev_next (site : Site.t) (i : nat) :
  (i < length (Site.points site))%nat ->
  let st :=
    StreetView.mkState (StreetView.nodeId i)
                       (StreetView.generatedNodes site) false in
  StreetView.handleNext st
  = (if (S i <? length (Site.points site))%nat
     then Some (StreetView.nodeId (S i)) else None) /\
  StreetView.handlePrev st
  = (if (0 <? i)%nat then Some (StreetView.nodeId (i - 1)) else None) /\
  forall target,
    StreetView.handleNext st = Some target \/
    StreetView.handlePrev st = Some target ->
    In target (StreetView.linksOf site i).
Proof.
  intros L st.
  assert (N : StreetView.handleNext st
              = (if (S i <? length (Site.points site))%nat
                 then Some (StreetView.nodeId (S i)) else None)).
  { unfold StreetView.handleNext. subst st.
    rewrite (currentIndex_generated site i false L).
    cbn [StreetView.nodes]. unfold StreetView.generatedNodes at 1.
    rewrite length_mapi.
    destruct (Nat.ltb_spec (S i) (length (Site.points site))) as [H|H].
    - destruct (Z.ltb_spec (Z.of_nat i)
                           (Z.of_nat (length (Site.points site)) - 1))
        as [Hz|Hz]; [|lia].
      replace (Z.of_nat i + 1)%Z with (Z.of_nat (S i)) by lia.
      now apply nodeAt_generated.
    - destruct (Z.ltb_spec (Z.of_nat i)
                           (Z.of_nat (length (Site.points site)) - 1))
        as [Hz|Hz]; [lia|reflexivity]. }
  assert (P : StreetView.handlePrev st
              = (if (0 <? i)%nat
                 then Some (StreetView.nodeId (i - 1)) else None)).
  { unfold StreetView.handlePrev. subst st.
    rewrite (currentIndex_generated site i false L).
    destruct (Nat.ltb_spec 0 i) as [H|H].
    - destruct (Z.ltb_spec 0 (Z.of_nat i)) as [Hz|Hz]; [|lia].
      replace (Z.of_nat i - 1)%Z with (Z.of_nat (i - 1)) by lia.
      apply nodeAt_generated. lia.
    - destruct (Z.ltb_spec 0 (Z.of_nat i)) as [Hz|Hz]; [lia|reflexivity]. }
  split; [exact N|]. split; [exact P|].
  intros target [H|H].
  - rewrite N in H.
    destruct (Nat.ltb_spec (S i) (length (Site.points site))) as [Hl|Hl];
      [|discriminate].
    injection H as <-. apply In_linksOf. right. left. lia.
  - rewrite P in H.
    destruct (Nat.ltb_spec 0 i) as [Hl|Hl]; [|discriminate].
    injection H as <-. apply In_linksOf. left. lia.
Qed.

Lemma tour_prev_next_witness :
  let site := Demo.openSite Sample.square (Some true) in
  let st :=
    StreetView.mkState (StreetView.nodeId 3)
                       (StreetView.generatedNodes site) false in
  StreetView.handleNext st = None /\
  StreetView.handlePrev st = Some "node-2"%string.
Proof.
  intros site st.
  destruct (tour_prev_next site 3) as [N [P _]];
    [simpl; lia|].
  split; [exact N|exact P].
Defined.

(** X23.  When the current id names no node of the tour, Previous does
    nothing and Next goes to the first node, if there is one. *)
Theorem tour_unknown_current
        (target : string) (nodes : list StreetView.TourNode) (u : bool) :
  (forall n, In n nodes -> StreetView.id n <> target) ->
  let st := StreetView.mkState target nodes u in
  StreetView.handlePrev st = None /\
  StreetView.handleNext st = option_map StreetView.id (hd_error nodes).
Proof.
  intros H st. subst st.
  unfold StreetView.handlePrev, StreetView.handleNext,
         StreetView.currentIndex.
  cbn [StreetView.currentNodeId StreetView.nodes].
  rewrite (findIndex_missing target nodes 0 H). split; [reflexivity|].
  destruct nodes as [|n r]; [reflexivity|].
  destruct (Z.ltb_spec (-1) (Z.of_nat (length (n :: r)) - 1)) as [L|L].
  - reflexivity.
  - simpl length in L. lia.
Qed.

Lemma tour_unknown_current_witness :
  let site := Demo.openSite Sample.square (Some true) in
  let st :=
    StreetView.mkState "" (StreetView.generatedNodes site) false in
  StreetView.handlePrev st = None /\
  StreetView.handleNext st = Some "node-0"%string.
Proof.
  intros site st.
  apply (tour_unknown_current "" (StreetView.generatedNodes site) false).
  intros n H. vm_compute in H.
  destruct H as [<-|[<-|[<-|[<-|[]]]]]; discriminate.
Defined.

Lemma map_mapi {A B C : Type} (g : B -> C) (f : A -> nat -> B)
      (l : list A) (k : nat) :
  map g (StreetView.mapi f k l) = StreetView.mapi (fun x i => g (f x i)) k l.
Proof.
  revert k. induction l as [|x r IH]; intros k; [reflexivity|].
  simpl. now rewrite IH.
Qed.

Lemma mapi_ext {A B : Type} (f g : A -> nat -> B) (l : list A) (k : nat) :
  (forall x i, f x i = g x i) ->
  StreetView.mapi f k l = StreetView.mapi g k l.
Proof.
  intros H. revert k. induction l as [|x r IH]; intros k; [reflexivity|].
  simpl. now rewrite IH, H.
Qed.

Lemma mapi_const {A B : Type} (f : A -> B) (l : list A) (k : nat) :
  StreetView.mapi (fun x _ => f x) k l = map f l.
Proof.
  revert k. induction l as [|x r IH]; intros k; [reflexivity|].
  simpl. now rewrite IH.
Qed.

Lemma map_enrich_generated (site : Site.t) :
  map (fun n =>
         StreetView.mkNode
           (StreetView.id n) (StreetView.panorama n) (StreetView.name n)
           (StreetView.gps n) (StreetView.links n)
           (Some (mkPoint (snd (StreetView.gps n))
                          (fst (StreetView.gps n)))))
      (StreetView.generatedNodes site)
  = StreetView.generatedNodes site.
Proof.
  unfold StreetView.generatedNodes. rewrite map_mapi.
  apply mapi_ext. intros p i. simpl. now destruct p.
Qed.

(** X24.  The street view opens on the uploader when the site has no
    point.  Otherwise it opens on a tour with one node per point, in
    order, the first node current; and that is also the state
    [handleTourReady] makes of the generated nodes: both ways of
    building a tour read [gps] as longitude then latitude. *)
Theorem opened_tour (site : Site.t) (st : StreetView.State) :
  (Site.points site = [] ->
   StreetView.opened site = StreetView.mkState EmptyString [] true) /\
  (Site.points site <> [] ->
   StreetView.showUploader (StreetView.opened site) = false /\
   StreetView.currentNodeId (StreetView.opened site) = StreetView.nodeId 0 /\
   map StreetView.position (StreetView.nodes (StreetView.opened site))
   = map Some (Site.points site) /\
   StreetView.handleTourReady (StreetView.generatedNodes site) st
   = StreetView.opened site).
Proof.
  unfold StreetView.opened. split.
  - intros ->. reflexivity.
  - intros NE. destruct (Site.points site) as [|p ps] eqn:E; [congruence|].
    cbn [length Nat.eqb]. cbv zeta.
    cbn [StreetView.showUploader StreetView.currentNodeId StreetView.nodes].
    split; [reflexivity|]. split; [|split].
    + unfold StreetView.generatedNodes. rewrite E. reflexivity.
    + unfold StreetView.generatedNodes. rewrite E, map_mapi.
      apply (mapi_const Some).
    + unfold StreetView.handleTourReady. cbv zeta.
      now rewrite map_enrich_generated.
Qed.

Lemma opened_tour_witness :
  let site := Demo.openSite Sample.square (Some true) in
  StreetView.opened (Demo.openSite [] (Some true))
  = StreetView.mkState EmptyString [] true /\
  StreetView.currentNodeId (StreetView.opened site) = "node-0"%string /\
  StreetView.handleTourReady (StreetView.generatedNodes site)
                             (StreetView.mkState "x" [] true)
  = StreetView.opened site.
Proof.
  intros site.
  destruct (opened_tour (Demo.openSite [] (Some true))
                        (StreetView.mkState "x" [] true)) as [E _].
  destruct (opened_tour site (StreetView.mkState "x" [] true)) as [_ N].
  split; [apply E; reflexivity|].
  destruct N as [_ [C [_ T]]]; [discriminate|].
  split; [exact C|exact T].
Defined.
